(** * Docker image validator: model and properties

    A shallow embedding of [docker-validation/docker_validator.py]:
    the reference parser, the existence checker, the metadata and tag
    enrichment, the batch runner and the command-line entry point.

    Python strings are [string], the sequence of their UTF-8 bytes: the
    program only looks for and cuts at ASCII characters, which UTF-8
    keeps apart from all others.  One-character separators are [ascii].
    Python exceptions are values of [exn]; a call that may raise returns
    a [result].  The network and the standard output are threaded
    explicitly through a state, which also records every network call
    and its outcome. *)

From Stdlib Require Import List Bool Arith ZArith Lia Permutation.
From Stdlib Require Import Ascii String.
From Stdlib Require Import DecimalString.
Import ListNotations.

Open Scope list_scope.
Open Scope string_scope.

(* ================================================================= *)
(** ** Exceptions and results *)

(** The subclasses of Python's [Exception] that the program can meet.
    Each carries the text that [str(e)] gives. *)
Inductive exn : Type :=
| RequestException (msg : string)   (* requests: connection error, timeout *)
| JSONDecodeError (msg : string)    (* response.json() on a body that is not JSON *)
| AttributeError (msg : string)
| TypeError (msg : string)
| KeyError (msg : string)
| ValueError (msg : string)
| IndexError (msg : string)
| OSError (msg : string).

Definition exn_str (e : exn) : string :=
  match e with
  | RequestException m | JSONDecodeError m | AttributeError m | TypeError m
  | KeyError m | ValueError m | IndexError m | OSError m => m
  end.

Inductive result (A : Type) : Type :=
| Ok (a : A)
| Raised (e : exn).
Arguments Ok {A} a.
Arguments Raised {A} e.


(* ================================================================= *)
(** ** Python string operations used by the program *)

Module PyStr.

(** [c in s] for a one-character [c]. *)
Fixpoint contains (c : ascii) (s : string) : bool :=
  match s with
  | EmptyString => false
  | String a s' => if Ascii.eqb a c then true else contains c s'
  end.

(** [s.rsplit(c, 1)]: the list [[s]] when [c] does not occur, and
    [[before; after]] around the last occurrence of [c] otherwise. *)
Fixpoint rsplit1 (c : ascii) (s : string) : list string :=
  match s with
  | EmptyString => [EmptyString]
  | String a s' =>
      match rsplit1 c s' with
      | [h; t] => [String a h; t]
      | _ => if Ascii.eqb a c then [EmptyString; s'] else [s]
      end
  end.

(** [s.split(c)]: never empty; an empty string gives [['']]. *)
Fixpoint split (c : ascii) (s : string) : list string :=
  match s with
  | EmptyString => [EmptyString]
  | String a s' =>
      if Ascii.eqb a c then EmptyString :: split c s'
      else match split c s' with
           | h :: t => String a h :: t
           | [] => [String a EmptyString]
           end
  end.

(** [sep.join(l)]. *)
Fixpoint join (sep : string) (l : list string) : string :=
  match l with
  | [] => EmptyString
  | [x] => x
  | x :: l' => x ++ sep ++ join sep l'
  end.

(** [s.startswith(p)]. *)
Definition startswith (p s : string) : bool := String.prefix p s.

(** [s.replace(old, new)] for a non-empty [old]: every occurrence,
    left to right, without overlap.  [skip] counts the characters of
    an occurrence that are still to be dropped. *)
Fixpoint replace_from (old new : string) (skip : nat) (s : string) : string :=
  match s with
  | EmptyString => EmptyString
  | String a s' =>
      match skip with
      | S k => replace_from old new k s'
      | O =>
          if String.prefix old s
          then new ++ replace_from old new (String.length old - 1) s'
          else String a (replace_from old new 0 s')
      end
  end.

Definition replace (old new s : string) : string := replace_from old new 0 s.

(** [s * n]. *)
Fixpoint repeat (s : string) (n : nat) : string :=
  match n with
  | O => EmptyString
  | S k => s ++ repeat s k
  end.

(** [str(n)] for a non-negative integer. *)
Definition of_nat (n : nat) : string := NilZero.string_of_uint (Nat.to_uint n).

End PyStr.

(** Tuple unpacking [a, b = l]. *)
Definition unpack2 (l : list string) : result (string * string) :=
  match l with
  | [a; b] => Ok (a, b)
  | [] | [_] => Raised (ValueError "not enough values to unpack (expected 2)")
  | _ => Raised (ValueError "too many values to unpack (expected 2)")
  end.

(** [l[0]]. *)
Definition index0 (l : list string) : result string :=
  match l with
  | x :: _ => Ok x
  | [] => Raised (IndexError "list index out of range")
  end.

(* ================================================================= *)
(** ** Reference parser *)

Definition default_registry : string := "docker.io".
Definition default_tag : string := "latest".

(** [DockerImageValidator.parse_image_name]. *)
Definition parse_image_name (image : string)
  : result (string * string * string) :=
  let registry := default_registry in
  let tag := default_tag in
  match (if PyStr.contains ":" image
         then unpack2 (PyStr.rsplit1 ":" image)
         else Ok (image, tag)) with
  | Raised e => Raised e
  | Ok (image, tag) =>
      if PyStr.contains "/" image then
        let parts := PyStr.split "/" image in
        match index0 parts with
        | Raised e => Raised e
        | Ok p0 =>
            if PyStr.contains "." p0 || PyStr.contains ":" p0
            then Ok (p0, PyStr.join "/" (tl parts), tag)
            else Ok (registry, image, tag)
        end
      else Ok (registry, "library/" ++ image, tag)
  end.

(** The canonical reconstruction [registry/repository:tag]. *)
Definition canonical (ref : string * string * string) : string :=
  let '(registry, repository, tag) := ref in
  registry ++ "/" ++ repository ++ ":" ++ tag.

(** What every parsed reference satisfies: the tag holds no colon, the
    registry holds no slash and holds a dot or a colon. *)
Definition well_formed (ref : string * string * string) : Prop :=
  let '(registry, _, tag) := ref in
  PyStr.contains ":" tag = false
  /\ PyStr.contains "/" registry = false
  /\ PyStr.contains "." registry || PyStr.contains ":" registry = true.

(* ================================================================= *)
(** ** Python values, dictionaries *)

(** What [response.json()] can return.  A float is kept as the bit
    pattern of its IEEE double; the program never computes with one. *)
#[warnings="-register-all"]
Inductive pyval : Type :=
| PNone
| PBool (b : bool)
| PInt (z : Z)
| PFloat (bits : Z)
| PStr (s : string)
| PList (l : list pyval)
| PDict (d : list (string * pyval)).

(** Insertion-ordered dictionaries with string keys. *)
Definition dict (V : Type) : Type := list (string * V).

Fixpoint dict_get {V} (d : dict V) (k : string) : option V :=
  match d with
  | [] => None
  | (k', v) :: d' => if String.eqb k' k then Some v else dict_get d' k
  end.

(** [d[k] = v]: an existing key keeps its place, a new one goes last. *)
Fixpoint dict_set {V} (d : dict V) (k : string) (v : V) : dict V :=
  match d with
  | [] => [(k, v)]
  | (k', v') :: d' =>
      if String.eqb k' k then (k, v) :: d' else (k', v') :: dict_set d' k v
  end.

Definition dict_keys {V} (d : dict V) : list string := map fst d.

(** The keys after [d[k] = v], from the keys before. *)
Definition keys_add (ks : list string) (k : string) : list string :=
  if in_dec string_dec k ks then ks else (ks ++ [k])%list.
Definition dict_values {V} (d : dict V) : list V := map snd d.

Definition type_name (v : pyval) : string :=
  match v with
  | PNone => "NoneType"
  | PBool _ => "bool"
  | PInt _ => "int"
  | PFloat _ => "float"
  | PStr _ => "str"
  | PList _ => "list"
  | PDict _ => "dict"
  end.

(** Truth value of [v] in a condition. *)
Definition truthy (v : pyval) : bool :=
  match v with
  | PNone => false
  | PBool b => b
  | PInt z => negb (z =? 0)%Z
  | PFloat bits => negb (Z.land bits (2 ^ 63 - 1) =? 0)%Z
  | PStr s => negb (String.eqb s "")
  | PList l => match l with [] => false | _ => true end
  | PDict d => match d with [] => false | _ => true end
  end.

(** [v.get(k, default)]. *)
Definition py_get (v : pyval) (k : string) (default : pyval) : result pyval :=
  match v with
  | PDict d => Ok (match dict_get d k with Some x => x | None => default end)
  | _ => Raised (AttributeError
                   ("'" ++ type_name v ++ "' object has no attribute 'get'"))
  end.

(** [v[:n]]. *)
Definition py_slice_to (n : nat) (v : pyval) : result pyval :=
  match v with
  | PList l => Ok (PList (firstn n l))
  | PStr s => Ok (PStr (String.substring 0 n s))
  | PDict _ => Raised (TypeError "unhashable type: 'slice'")
  | _ => Raised (TypeError
                   ("'" ++ type_name v ++ "' object is not subscriptable"))
  end.

Fixpoint chars (s : string) : list pyval :=
  match s with
  | EmptyString => []
  | String a s' => PStr (String a EmptyString) :: chars s'
  end.

(** The items a [for] visits in [v]. *)
Definition py_iter (v : pyval) : result (list pyval) :=
  match v with
  | PList l => Ok l
  | PStr s => Ok (chars s)
  | PDict d => Ok (map (fun kv => PStr (fst kv)) d)
  | _ => Raised (TypeError
                   ("'" ++ type_name v ++ "' object is not iterable"))
  end.

(** [v[k]] for a string key [k]. *)
Definition py_item (v : pyval) (k : string) : result pyval :=
  match v with
  | PDict d =>
      match dict_get d k with
      | Some x => Ok x
      | None => Raised (KeyError ("'" ++ k ++ "'"))
      end
  | PList _ => Raised (TypeError "list indices must be integers or slices, not str")
  | PStr _ => Raised (TypeError "string indices must be integers, not 'str'")
  | _ => Raised (TypeError
                   ("'" ++ type_name v ++ "' object is not subscriptable"))
  end.

(** [[f(x) for x in l]]: the first exception ends the comprehension. *)
Fixpoint comprehension {A B} (f : A -> result B) (l : list A) : result (list B) :=
  match l with
  | [] => Ok []
  | x :: l' =>
      match f x with
      | Raised e => Raised e
      | Ok y =>
          match comprehension f l' with
          | Raised e => Raised e
          | Ok ys => Ok (y :: ys)
          end
      end
  end.

(** [sep.join(l)] on Python values: every item must be a [str]; the
    exception names the index of the first item that is not. *)
Fixpoint py_strings_from (i : nat) (l : list pyval) : result (list string) :=
  match l with
  | [] => Ok []
  | PStr s :: l' =>
      match py_strings_from (S i) l' with
      | Raised e => Raised e
      | Ok ss => Ok (s :: ss)
      end
  | v :: _ => Raised (TypeError
                        ("sequence item " ++ PyStr.of_nat i
                           ++ ": expected str instance, "
                           ++ type_name v ++ " found"))
  end.

Definition py_strings (l : list pyval) : result (list string) :=
  py_strings_from 0 l.

Definition py_join (sep : string) (l : list pyval) : result string :=
  match py_strings l with
  | Raised e => Raised e
  | Ok ss => Ok (PyStr.join sep ss)
  end.

(* ================================================================= *)
(** ** HTTP requests and responses *)

Inductive http_method : Type := GET | HEAD.

(** A header value is a text, or [Bearer] followed by the token that
    the auth endpoint returned. *)
Inductive header_value : Type :=
| HText (s : string)
| HBearer (token : pyval).

Record Request : Type := mkRequest {
  req_method : http_method;
  req_url : string;
  req_params : list (string * string);
  req_headers : list (string * header_value);
  req_timeout : nat
}.

Record Response : Type := mkResponse {
  status_code : Z;
  json : result pyval     (* what [response.json()] returns or raises *)
}.

(** Headers set on the session by [__init__]. *)
Definition session_headers : list (string * header_value) :=
  [("User-Agent", HText "docker-image-validator/1.0")].

(* ================================================================= *)
(** ** Result records *)

Record ValidationResult : Type := mkValidationResult {
  vr_image : string;
  vr_exists : bool;
  vr_registry : option string;      (* [None] until parsed *)
  vr_repository : option string;    (* key absent until parsed *)
  vr_tag : option string;           (* key absent until parsed *)
  vr_tags : list pyval;
  vr_metadata : dict pyval;
  vr_errors : list string
}.

Definition set_parsed (r : ValidationResult) (registry repository tag : string) :=
  mkValidationResult (vr_image r) (vr_exists r) (Some registry) (Some repository)
    (Some tag) (vr_tags r) (vr_metadata r) (vr_errors r).

Definition set_exists (r : ValidationResult) (b : bool) :=
  mkValidationResult (vr_image r) b (vr_registry r) (vr_repository r)
    (vr_tag r) (vr_tags r) (vr_metadata r) (vr_errors r).

Definition set_metadata (r : ValidationResult) (m : dict pyval) :=
  mkValidationResult (vr_image r) (vr_exists r) (vr_registry r) (vr_repository r)
    (vr_tag r) (vr_tags r) m (vr_errors r).

Definition set_tags (r : ValidationResult) (t : list pyval) :=
  mkValidationResult (vr_image r) (vr_exists r) (vr_registry r) (vr_repository r)
    (vr_tag r) t (vr_metadata r) (vr_errors r).

Definition append_error (r : ValidationResult) (msg : string) :=
  mkValidationResult (vr_image r) (vr_exists r) (vr_registry r) (vr_repository r)
    (vr_tag r) (vr_tags r) (vr_metadata r) (vr_errors r ++ [msg])%list.

Record BatchResult : Type := mkBatchResult {
  timestamp : Z;                        (* a float, as its bit pattern *)
  total_images : nat;
  results : dict ValidationResult
}.

Definition set_result (b : BatchResult) (image : string) (r : ValidationResult) :=
  mkBatchResult (timestamp b) (total_images b) (dict_set (results b) image r).

(** The namespace that [argparse] returns. *)
Record Args : Type := mkArgs {
  command : string;
  images : list string;
  output : option string;
  verbose : bool
}.

(** [parser.parse_args()] returns a namespace or leaves the process
    (usage error, [--help]). *)
Inductive argparse_outcome : Type :=
| Parsed (a : Args)
| ArgparseExit (code : Z).

(** How [main] ends. *)
Inductive exit : Type :=
| Returned                 (* falls off the end: status 0 *)
| SystemExit (code : Z)
| Uncaught (e : exn).      (* traceback *)

(* ================================================================= *)
(** ** A state and exception monad *)

Definition M (S A : Type) : Type := S -> result A * S.

Definition ret {S A} (a : A) : M S A := fun s => (Ok a, s).

Definition raise {S A} (e : exn) : M S A := fun s => (Raised e, s).

Definition bind {S A B} (c : M S A) (k : A -> M S B) : M S B :=
  fun s =>
    match c s with
    | (Ok a, s') => k a s'
    | (Raised e, s') => (Raised e, s')
    end.

(** [try: c  except Exception as e: h e]; the handler starts from the
    state at the point of the raise. *)
Definition try_except {S A} (c : M S A) (h : exn -> M S A) : M S A :=
  fun s =>
    match c s with
    | (Ok a, s') => (Ok a, s')
    | (Raised e, s') => h e s'
    end.

Definition lift {S A} (r : result A) : M S A := fun s => (r, s).

Definition get_local {L S} : M (L * S) L := fun s => (Ok (fst s), s).

Definition update_local {L S} (f : L -> L) : M (L * S) unit :=
  fun s => (Ok tt, (f (fst s), snd s)).

(** Run a computation of the outer state under a local variable. *)
Definition outer {L S A} (c : M S A) : M (L * S) A :=
  fun s => let (r, s') := c (snd s) in (r, (fst s, s')).

(** Declare a local variable with initial value [l0] for [c]. *)
Definition with_local {L S A} (l0 : L) (c : M (L * S) A) : M S A :=
  fun s => let (r, ls) := c (l0, s) in (r, snd ls).

Definition when {S} (b : bool) (c : M S unit) : M S unit :=
  if b then c else ret tt.

Fixpoint for_each {S A} (l : list A) (body : A -> M S unit) : M S unit :=
  match l with
  | [] => ret tt
  | x :: l' => bind (body x) (fun _ => for_each l' body)
  end.

Declare Scope py_scope.
Delimit Scope py_scope with py.
Notation "x <- c ;; k" := (bind c (fun x => k))
  (at level 61, c at next level, right associativity) : py_scope.
Notation "c ;; k" := (bind c (fun _ => k))
  (at level 61, right associativity) : py_scope.
Open Scope py_scope.

(* ================================================================= *)
(** ** The validator *)

Definition nl : string := String (ascii_of_nat 10) EmptyString.

(** The marks printed after [Exists:], U+2713 and U+2717 in UTF-8. *)
Definition check_mark : string :=
  String (ascii_of_nat 226) (String (ascii_of_nat 156)
    (String (ascii_of_nat 147) EmptyString)).
Definition cross_mark : string :=
  String (ascii_of_nat 226) (String (ascii_of_nat 156)
    (String (ascii_of_nat 151) EmptyString)).

(** [str(z)] for an integer. *)
Definition str_of_Z (z : Z) : string := NilZero.string_of_int (Z.to_int z).

(** The name under which the public web API knows a repository. *)
Definition hub_repo_name (repository : string) : string :=
  if PyStr.startswith "library/" repository
  then PyStr.replace "library/" "" repository
  else repository.

Definition sentinel : string := "!docker-image-validation".

Section Validator.

(** The outside world: the network behind [requests], the clock, the
    file system and [argparse].  A request returns a response or raises,
    and moves the world on. *)
Variable World : Type.
Variable send : World -> Request -> result Response * World.
Variable clock : World -> Z.
Variable write_json : World -> string -> BatchResult -> result unit * World.
Variable parse_args : list string -> argparse_outcome.

(** The program state: the world, the lines printed so far, and the
    network calls made so far, each with what it returned or raised. *)
Record State : Type := mkState {
  world : World;
  stdout : list string;
  calls : list (Request * result Response)
}.

Definition print (line : string) : M State unit :=
  fun st => (Ok tt, mkState (world st) (stdout st ++ [line])%list (calls st)).

(** One network call. *)
Definition call (req : Request) : M State Response :=
  fun st =>
    let (r, w) := send (world st) req in
    (r, mkState w (stdout st) (calls st ++ [(req, r)])%list).

Definition time_time : M State Z :=
  fun st => (Ok (clock (world st)), st).

(** [self.session.get(url, params=params, timeout=timeout)]. *)
Definition session_get (url : string) (params : list (string * string))
    (timeout : nat) : M State Response :=
  call (mkRequest GET url params session_headers timeout).

(** [self.session.head(url, headers=headers, timeout=timeout)]. *)
Definition session_head (url : string) (headers : list (string * header_value))
    (timeout : nat) : M State Response :=
  call (mkRequest HEAD url [] (session_headers ++ headers)%list timeout).

(** [open(path, 'w')] and [json.dump(results, f, indent=2)]. *)
Definition dump_json (path : string) (b : BatchResult) : M State unit :=
  fun st =>
    let (r, w) := write_json (world st) path b in
    (r, mkState w (stdout st) (calls st)).

(** [DockerImageValidator.check_image_exists].  [returned] is [Some b]
    when the token branch has executed [return b]. *)
Definition check_image_exists (registry repository tag : string)
  : M State bool :=
  try_except
    (if String.eqb registry "docker.io" then
       let auth_url := "https://auth.docker.io/token" in
       let auth_params :=
         [("service", "registry.docker.io");
          ("scope", "repository:" ++ repository ++ ":pull")] in
       auth_response <- session_get auth_url auth_params 10 ;;
       returned <-
         (if (status_code auth_response =? 200)%Z then
            token_data <- lift (json auth_response) ;;
            token <- lift (py_get token_data "token" PNone) ;;
            if truthy token then
              let url := "https://registry-1.docker.io/v2/" ++ repository
                           ++ "/manifests/" ++ tag in
              let headers :=
                [("Authorization", HBearer token);
                 ("Accept",
                  HText "application/vnd.docker.distribution.manifest.v2+json")] in
              response <- session_head url headers 10 ;;
              ret (Some (status_code response =? 200)%Z)
            else ret None
          else ret None) ;;
       match returned with
       | Some b => ret b
       | None =>
           let repo_name := hub_repo_name repository in
           let hub_url := "https://hub.docker.com/v2/repositories/"
                            ++ repo_name ++ "/tags/" ++ tag ++ "/" in
           response <- session_get hub_url [] 10 ;;
           ret (status_code response =? 200)%Z
       end
     else
       let url := "https://" ++ registry ++ "/v2/" ++ repository
                    ++ "/manifests/" ++ tag in
       response <- session_head url [] 10 ;;
       ret (status_code response =? 200)%Z)
    (fun e =>
       print ("Error checking image existence for " ++ registry ++ "/"
                ++ repository ++ ":" ++ tag ++ ": " ++ exn_str e) ;;
       ret false).

(** The request that [get_image_metadata] sends. *)
Definition metadata_request (repository : string) : Request :=
  mkRequest GET
    ("https://hub.docker.com/v2/repositories/" ++ hub_repo_name repository ++ "/")
    [] session_headers 10.

(** [DockerImageValidator.get_image_metadata]; the local variable is
    [metadata]. *)
Definition get_image_metadata (registry repository tag : string)
  : M State (dict pyval) :=
  with_local ([] : dict pyval)
    (try_except
       (when (String.eqb registry "docker.io")
          (let repo_name := hub_repo_name repository in
           let hub_url := "https://hub.docker.com/v2/repositories/"
                            ++ repo_name ++ "/" in
           response <- outer (session_get hub_url [] 10) ;;
           when (status_code response =? 200)%Z
             (repo_data <- lift (json response) ;;
              description <- lift (py_get repo_data "description" (PStr "")) ;;
              update_local (fun m => dict_set m "description" description) ;;
              star_count <- lift (py_get repo_data "star_count" (PInt 0)) ;;
              update_local (fun m => dict_set m "star_count" star_count) ;;
              pull_count <- lift (py_get repo_data "pull_count" (PInt 0)) ;;
              update_local (fun m => dict_set m "pull_count" pull_count) ;;
              last_updated <- lift (py_get repo_data "last_updated" (PStr "")) ;;
              update_local (fun m => dict_set m "last_updated" last_updated))))
       (fun e => outer (print ("Error getting metadata: " ++ exn_str e))) ;;
     get_local).

(** The request that [get_available_tags] sends. *)
Definition tags_request (repository : string) : Request :=
  mkRequest GET
    ("https://hub.docker.com/v2/repositories/" ++ hub_repo_name repository
       ++ "/tags/")
    [] session_headers 10.

(** [DockerImageValidator.get_available_tags]; the local variable is
    [tags]. *)
Definition get_available_tags (registry repository : string)
  : M State (list pyval) :=
  with_local ([] : list pyval)
    (try_except
       (when (String.eqb registry "docker.io")
          (let repo_name := hub_repo_name repository in
           let hub_url := "https://hub.docker.com/v2/repositories/"
                            ++ repo_name ++ "/tags/" in
           response <- outer (session_get hub_url [] 10) ;;
           when (status_code response =? 200)%Z
             (data <- lift (json response) ;;
              results <- lift (py_get data "results" (PList [])) ;;
              first10 <- lift (py_slice_to 10 results) ;;
              items <- lift (py_iter first10) ;;
              names <- lift (comprehension
                               (fun result => py_item result "name") items) ;;
              update_local (fun _ => names))))
       (fun e => outer (print ("Error getting tags: " ++ exn_str e))) ;;
     get_local).

(** The dictionary that [validate_single_image] starts from. *)
Definition initial_result (image : string) : ValidationResult :=
  mkValidationResult image false None None None [] [] [].

(** [DockerImageValidator.validate_single_image]; the local variable is
    [result]. *)
Definition validate_single_image (image : string) : M State ValidationResult :=
  with_local (initial_result image)
    (try_except
       (parsed <- lift (parse_image_name image) ;;
        let '(registry, repository, tag) := parsed in
        update_local (fun r => set_parsed r registry repository tag) ;;
        found <- outer (check_image_exists registry repository tag) ;;
        if found then
          update_local (fun r => set_exists r true) ;;
          metadata <- outer (get_image_metadata registry repository tag) ;;
          update_local (fun r => set_metadata r metadata) ;;
          tags <- outer (get_available_tags registry repository) ;;
          update_local (fun r => set_tags r tags)
        else
          update_local (fun r =>
            append_error r ("Image " ++ image ++ " not found in registry "
                              ++ registry)))
       (fun e =>
          update_local (fun r =>
            append_error r ("Error validating " ++ image ++ ": " ++ exn_str e))) ;;
     get_local).

(** The two ways in which a validation ends. *)
Inductive validated (image : string) (st : State)
  : ValidationResult -> State -> Prop :=
| validated_found registry repository tag st1 st2 st3 metadata tags :
    parse_image_name image = Ok (registry, repository, tag) ->
    check_image_exists registry repository tag st = (Ok true, st1) ->
    get_image_metadata registry repository tag st1 = (Ok metadata, st2) ->
    get_available_tags registry repository st2 = (Ok tags, st3) ->
    validated image st
      (mkValidationResult image true (Some registry) (Some repository)
         (Some tag) tags metadata []) st3
| validated_not_found registry repository tag st1 :
    parse_image_name image = Ok (registry, repository, tag) ->
    check_image_exists registry repository tag st = (Ok false, st1) ->
    validated image st
      (mkValidationResult image false (Some registry) (Some repository)
         (Some tag) [] []
         ["Image " ++ image ++ " not found in registry " ++ registry]) st1.

(** [DockerImageValidator.validate_image_list]; the local variable is
    [results]. *)
Definition validate_image_list (images : list string) : M State BatchResult :=
  now <- time_time ;;
  with_local (mkBatchResult now (List.length images) [])
    (for_each images (fun image =>
       outer (print ("Validating image: " ++ image)) ;;
       r <- outer (validate_single_image image) ;;
       update_local (fun b => set_result b image r)) ;;
     get_local).

(** The summary that [main] prints for one entry of [results]. *)
Definition print_entry (entry : string * ValidationResult) : M State unit :=
  let (image, result) := entry in
  print (nl ++ "Image: " ++ image) ;;
  print ("  Exists: " ++ (if vr_exists result then check_mark else cross_mark)) ;;
  print ("  Registry: "
           ++ match vr_registry result with Some r => r | None => "None" end) ;;
  when (match vr_errors result with [] => false | _ => true end)
    (print ("  Errors: " ++ PyStr.join ", " (vr_errors result))) ;;
  when (vr_exists result)
    (shown <- lift (py_join ", " (firstn 5 (vr_tags result))) ;;
     print ("  Available tags: " ++ shown) ;;
     when (Nat.ltb 5 (List.length (vr_tags result)))
       (print ("    ... and "
                 ++ PyStr.of_nat (List.length (vr_tags result) - 5) ++ " more"))).

(** The part of [main] after the validation: the file or the summary. *)
Definition main_report (args : Args) (res : BatchResult) : M State unit :=
  match output args with
  | Some (String a p) =>
      let path := String a p in
      dump_json path res ;;
      print ("Results saved to " ++ path)
  | _ =>
      print (nl ++ PyStr.repeat "=" 50) ;;
      print "DOCKER IMAGE VALIDATION RESULTS" ;;
      print (PyStr.repeat "=" 50) ;;
      for_each (results res) print_entry ;;
      print (nl ++ "Total images validated: " ++ PyStr.of_nat (total_images res)) ;;
      let successful :=
        List.length (filter vr_exists (dict_values (results res))) in
      print ("Successful validations: " ++ PyStr.of_nat successful) ;;
      print ("Failed validations: "
               ++ str_of_Z (Z.of_nat (total_images res) - Z.of_nat successful))
  end.

(** [main], from the command line [argv] on. *)
Definition main (argv : list string) : State -> exit * State :=
  fun st =>
    match parse_args argv with
    | ArgparseExit code => (SystemExit code, st)
    | Parsed args =>
        if negb (String.eqb (command args) sentinel) then
          match print ("Error: Unknown command '" ++ command args
                         ++ "'. Expected '!docker-image-validation'") st with
          | (_, st') => (SystemExit 1, st')   (* sys.exit(1) *)
          end
        else
          match (res <- validate_image_list (images args) ;;
                 main_report args res) st with
          | (Ok _, st') => (Returned, st')
          | (Raised e, st') => (Uncaught e, st')
          end
    end.

End Validator.

Arguments mkState {World} _ _ _.
Arguments world {World} _.
Arguments stdout {World} _.
Arguments calls {World} _.




(** A fetch fails when it raises or answers with a status other
    than 200. *)
Definition fetch_failed (r : result Response) : bool :=
  match r with
  | Raised _ => true
  | Ok response => negb (status_code response =? 200)%Z
  end.

(** How [main] ends after a computation. *)
Definition exit_of {A} (r : result A) : exit :=
  match r with
  | Ok _ => Returned
  | Raised e => Uncaught e
  end.

(** The line that [main] prints for a wrong command. *)
Definition unknown_command_message (cmd : string) : string :=
  "Error: Unknown command '" ++ cmd ++ "'. Expected '!docker-image-validation'".

(* ================================================================= *)
(** ** Predicates on computations *)

(** [c] returns a value from every state: no exception leaves it. *)
Definition never_raises {S A} (c : M S A) : Prop :=
  forall s, exists a s', c s = (Ok a, s').

(** [c] only appends to the log that [lg] reads from the state. *)
Definition log_grows {S A E} (lg : S -> list E) (c : M S A) : Prop :=
  forall s r s', c s = (r, s') -> exists d, lg s' = (lg s ++ d)%list.

(* ================================================================= *)
(** ** Concrete worlds *)

Module Scenario.

(** A network on which every call times out. *)
Definition down (w : unit) (req : Request) : result Response * unit :=
  (Raised (RequestException "Read timed out. (read timeout=10)"), tt).

Definition hub_body : pyval :=
  PDict [("token", PStr "t0");
         ("description", PStr "Official build of Nginx.");
         ("star_count", PInt 100);
         ("results", PList [PDict [("name", PStr "latest")];
                            PDict [("name", PStr "stable")]])].

(** A network on which every call is answered with status 200. *)
Definition up (w : unit) (req : Request) : result Response * unit :=
  (Ok (mkResponse 200 (Ok hub_body)), tt).

(** A network on which the images exist and every [GET] of the public
    web API is answered with status 404. *)
Definition hub_missing (w : unit) (req : Request) : result Response * unit :=
  match req_method req with
  | HEAD => (Ok (mkResponse 200 (Raised (JSONDecodeError "Expecting value"))), tt)
  | GET =>
      if String.prefix "https://hub.docker.com/" (req_url req)
      then (Ok (mkResponse 404 (Ok (PDict []))), tt)
      else (Ok (mkResponse 200 (Ok hub_body)), tt)
  end.

Definition clock (w : unit) : Z := 0%Z.

Definition write_json (w : unit) (path : string) (b : BatchResult)
  : result unit * unit := (Ok tt, tt).

(** Two positionals at least, no options. *)
Definition parse_args (argv : list string) : argparse_outcome :=
  match argv with
  | cmd :: image :: more => Parsed (mkArgs cmd (image :: more) None false)
  | _ => ArgparseExit 2
  end.

Definition start : State unit := mkState tt [] [].

End Scenario.

(* ================================================================= *)
(** ** The requests of the validator, and what answers look like *)

(** The token request of [check_image_exists]. *)
Definition auth_request (repository : string) : Request :=
  mkRequest GET "https://auth.docker.io/token"
    [("service", "registry.docker.io");
     ("scope", "repository:" ++ repository ++ ":pull")]
    session_headers 10.

(** The manifest request of [check_image_exists] on the default
    registry, with the token. *)
Definition manifest_request (repository tag : string) (token : pyval)
  : Request :=
  mkRequest HEAD
    ("https://registry-1.docker.io/v2/" ++ repository ++ "/manifests/" ++ tag)
    []
    (session_headers
       ++ [("Authorization", HBearer token);
           ("Accept",
            HText "application/vnd.docker.distribution.manifest.v2+json")])%list
    10.

(** The fallback request of [check_image_exists] to the public web API. *)
Definition hub_tag_request (repository tag : string) : Request :=
  mkRequest GET
    ("https://hub.docker.com/v2/repositories/" ++ hub_repo_name repository
       ++ "/tags/" ++ tag ++ "/")
    [] session_headers 10.


(** A request as the session sends it: over https, with the
    [User-Agent] of the session first, and a timeout of 10 seconds. *)
Definition session_request (req : Request) : bool :=
  String.prefix "https://" (req_url req)
  && Nat.eqb (req_timeout req) 10
  && match req_headers req with
     | (name, HText value) :: _ =>
         String.eqb name "User-Agent"
         && String.eqb value "docker-image-validator/1.0"
     | _ => false
     end.


(** The token request was answered, without a usable token: another
    status than 200, or an object whose [token] is missing or falsy. *)
Definition token_refused (response : Response) : bool :=
  if (status_code response =? 200)%Z then
    match json response with
    | Ok (PDict d) =>
        negb (truthy (match dict_get d "token" with
                      | Some t => t
                      | None => PNone
                      end))
    | _ => false
    end
  else true.

(** [d.get(k, default)] on the entries of an object. *)
Definition field_or (d : dict pyval) (k : string) (default : pyval) : pyval :=
  match dict_get d k with
  | Some x => x
  | None => default
  end.

(** [entry] is an object whose [name] is [n]. *)
Definition has_name (entry n : pyval) : Prop :=
  exists d, entry = PDict d /\ dict_get d "name" = Some n.

(** What holds of every entry [(image, result)] of a batch. *)
Definition entry_ok (entry : string * ValidationResult) : Prop :=
  let (image, r) := entry in
  vr_image r = image
  /\ (exists registry repository tag,
        parse_image_name image = Ok (registry, repository, tag)
        /\ vr_registry r = Some registry
        /\ vr_repository r = Some repository
        /\ vr_tag r = Some tag)
  /\ vr_exists r = Nat.eqb (List.length (vr_errors r)) 0
  /\ List.length (vr_tags r) <= 10.


(** The metadata fetch succeeded: from the world [w] the request was
    answered 200 with an object, and [metadata] holds its four fields. *)
Definition metadata_fetched {World : Type}
    (send : World -> Request -> result Response * World) (w : World)
    (repository : string) (metadata : dict pyval) : Prop :=
  exists response w' d,
    send w (metadata_request repository) = (Ok response, w')
    /\ status_code response = 200%Z
    /\ json response = Ok (PDict d)
    /\ metadata
       = [("description", field_or d "description" (PStr ""));
          ("star_count", field_or d "star_count" (PInt 0));
          ("pull_count", field_or d "pull_count" (PInt 0));
          ("last_updated", field_or d "last_updated" (PStr ""))].

(** The tag fetch succeeded: from the world [w] the request was
    answered 200 with an object whose [results] is a list, each of its
    first ten entries has a name, and [tags] are these names. *)
Definition tags_fetched {World : Type}
    (send : World -> Request -> result Response * World) (w : World)
    (repository : string) (tags : list pyval) : Prop :=
  exists response w' d l,
    send w (tags_request repository) = (Ok response, w')
    /\ status_code response = 200%Z
    /\ json response = Ok (PDict d)
    /\ dict_get d "results" = Some (PList l)
    /\ Forall2 has_name (firstn 10 l) tags.

(** Further concrete worlds. *)
Module Cases.

(** [parser.parse_args()] for the parser of lines 237-241, on command
    lines without options.  [command] takes the first word; [images],
    with [nargs='+'], takes all the others and needs one at least: a
    command line of fewer than two words is a usage error, which
    argparse reports on the standard error before it exits with status
    2.  [output] and [verbose] keep their defaults.  A word that starts
    with [-] may be an option, which argparse reads in many forms; such
    command lines are not modelled: they are answered here like an
    unknown option, with status 2, and nothing below uses them. *)
Definition parse_args_plain (argv : list string) : argparse_outcome :=
  if existsb (String.prefix "-") argv then ArgparseExit 2
  else match argv with
       | cmd :: image :: more => Parsed (mkArgs cmd (image :: more) None false)
       | _ => ArgparseExit 2
       end.



(** The auth endpoint answers 503, everything else 200. *)
Definition no_token (w : unit) (req : Request) : result Response * unit :=
  if String.prefix "https://auth.docker.io/" (req_url req)
  then (Ok (mkResponse 503 (Raised (JSONDecodeError "Expecting value"))), tt)
  else (Ok (mkResponse 200 (Ok Scenario.hub_body)), tt).

(** The listing holds twelve entries; the eleventh has no name. *)
Definition long_listing : list pyval :=
  map (fun n => PDict [("name", PStr n)])
    ["1"; "2"; "3"; "4"; "5"; "6"; "7"; "8"; "9"; "10"]
  ++ [PDict [("id", PInt 11)]; PDict [("name", PStr "12")]].

Definition listing (w : unit) (req : Request) : result Response * unit :=
  (Ok (mkResponse 200 (Ok (PDict [("count", PInt 12);
                                  ("results", PList long_listing)]))), tt).

(** The second entry of the listing has no name. *)
Definition broken_listing (w : unit) (req : Request) : result Response * unit :=
  (Ok (mkResponse 200
         (Ok (PDict [("results", PList [PDict [("name", PStr "latest")];
                                        PDict [("id", PInt 2)]])]))), tt).

(** The answer is an object without any of the expected keys. *)
Definition bare (w : unit) (req : Request) : result Response * unit :=
  (Ok (mkResponse 200 (Ok (PDict [("user", PStr "library")]))), tt).


End Cases.

(* ================================================================= *)
(** * Properties *)

(** ** Strings *)

Section StringFacts.

Variable c : ascii.

Lemma append_assoc (s t u : string) : (s ++ t) ++ u = s ++ (t ++ u).
Proof. induction s as [|a s IH]; simpl; [reflexivity | now rewrite IH]. Qed.

Lemma contains_append (s t : string) :
  PyStr.contains c (s ++ t) = PyStr.contains c s || PyStr.contains c t.
Proof.
  induction s as [|a s IH]; simpl; [reflexivity|].
  destruct (Ascii.eqb a c); [reflexivity | exact IH].
Qed.

Lemma contains_cons_same (s : string) : PyStr.contains c (String c s) = true.
Proof. simpl. now rewrite Ascii.eqb_refl. Qed.

Lemma rsplit1_absent (s : string) :
  PyStr.contains c s = false -> PyStr.rsplit1 c s = [s].
Proof.
  induction s as [|a s IH]; simpl; [reflexivity|].
  destruct (Ascii.eqb a c) eqn:E; [discriminate|].
  intros H. rewrite (IH H). reflexivity.
Qed.

(** Splitting at a separator that is followed by none. *)
Lemma rsplit1_last (s t : string) :
  PyStr.contains c t = false ->
  PyStr.rsplit1 c (s ++ String c t) = [s; t].
Proof.
  intros Ht. induction s as [|a s IH]; simpl.
  - rewrite (rsplit1_absent t Ht), Ascii.eqb_refl. reflexivity.
  - rewrite IH. reflexivity.
Qed.

(** When the separator occurs, [rsplit1] gives two parts and the
    second holds no separator. *)
Lemma rsplit1_present (s : string) :
  PyStr.contains c s = true ->
  exists h t, PyStr.rsplit1 c s = [h; t] /\ s = h ++ String c t
              /\ PyStr.contains c t = false.
Proof.
  induction s as [|a s IH]; simpl; [discriminate|].
  destruct (PyStr.contains c s) eqn:Hs.
  - intros _. destruct (IH eq_refl) as (h & t & E & Es & Ht).
    rewrite E. exists (String a h), t. simpl. now rewrite <- Es.
  - destruct (Ascii.eqb a c) eqn:E; [|discriminate].
    intros _. rewrite (rsplit1_absent s Hs).
    apply Ascii.eqb_eq in E. subst a.
    exists EmptyString, s. auto.
Qed.

Lemma split_not_nil (s : string) : PyStr.split c s <> [].
Proof.
  destruct s as [|a s]; simpl; [discriminate|].
  destruct (Ascii.eqb a c); [discriminate|].
  destruct (PyStr.split c s); discriminate.
Qed.

Lemma split_head (s h : string) (t : list string) :
  PyStr.split c s = h :: t -> PyStr.contains c h = false.
Proof.
  revert h t. induction s as [|a s IH]; simpl; intros h t.
  - intros [= <- _]. reflexivity.
  - destruct (Ascii.eqb a c) eqn:E.
    + intros [= <- _]. reflexivity.
    + destruct (PyStr.split c s) as [|h' t'] eqn:Es.
      * intros [= <- _]. simpl. now rewrite E.
      * intros [= <- _]. simpl. rewrite E. eapply IH. reflexivity.
Qed.

Lemma split_append (r rest : string) :
  PyStr.contains c r = false ->
  PyStr.split c (r ++ String c rest) = r :: PyStr.split c rest.
Proof.
  induction r as [|a r IH]; simpl.
  - intros _. now rewrite Ascii.eqb_refl.
  - destruct (Ascii.eqb a c); [discriminate|].
    intros H. rewrite (IH H). reflexivity.
Qed.

Lemma join_cons_char (sep : string) (a : ascii) (h : string) (t : list string) :
  PyStr.join sep (String a h :: t) = String a (PyStr.join sep (h :: t)).
Proof. destruct t; reflexivity. Qed.

Lemma join_split (s : string) :
  PyStr.join (String c EmptyString) (PyStr.split c s) = s.
Proof.
  induction s as [|a s IH]; simpl; [reflexivity|].
  destruct (Ascii.eqb a c) eqn:E.
  - apply Ascii.eqb_eq in E. subst a.
    destruct (PyStr.split c s) as [|h t] eqn:Es.
    + now destruct (split_not_nil s).
    + simpl in *. now rewrite IH.
  - destruct (PyStr.split c s) as [|h t] eqn:Es.
    + now destruct (split_not_nil s).
    + rewrite join_cons_char, IH. reflexivity.
Qed.

End StringFacts.

(** ** [dict_set] and [dict_get] *)

Section DictFacts.

Context {V : Type}.

Lemma dict_keys_set (d : dict V) (k : string) (v : V) :
  dict_keys (dict_set d k v) = keys_add (dict_keys d) k.
Proof.
  unfold dict_keys, keys_add.
  induction d as [|[k' v'] d IH]; simpl; [reflexivity|].
  destruct (String.eqb k' k) eqn:E.
  - apply String.eqb_eq in E. subst k'. simpl.
    destruct (string_dec k k); [reflexivity | congruence].
  - apply String.eqb_neq in E. simpl.
    destruct (string_dec k' k); [congruence|].
    rewrite IH.
    destruct (in_dec string_dec k (map fst d)); reflexivity.
Qed.

End DictFacts.




(** ** The reference parser *)

Lemma parse_image_name_well_formed (image : string) :
  exists ref, parse_image_name image = Ok ref /\ well_formed ref.
Proof.
  unfold parse_image_name.
  assert (Hsplit : exists image' tag,
             (if PyStr.contains ":" image
              then unpack2 (PyStr.rsplit1 ":" image)
              else Ok (image, default_tag)) = Ok (image', tag)
             /\ PyStr.contains ":" tag = false).
  { destruct (PyStr.contains ":" image) eqn:Hc.
    - destruct (rsplit1_present _ _ Hc) as (h & t & E & _ & Ht).
      rewrite E. exists h, t. auto.
    - exists image, default_tag. auto. }
  destruct Hsplit as (image' & tag & -> & Htag).
  destruct (PyStr.contains "/" image') eqn:Hslash.
  - cbv zeta. destruct (PyStr.split "/" image') as [|p0 rest] eqn:Es.
    + now destruct (split_not_nil "/" image').
    + simpl index0. cbv iota beta.
      destruct (PyStr.contains "." p0 || PyStr.contains ":" p0) eqn:Hreg.
      * eexists. split; [reflexivity|]. simpl.
        repeat split; auto. eapply split_head; eauto.
      * eexists. split; [reflexivity|]. simpl. auto.
  - eexists. split; [reflexivity|]. simpl. auto.
Qed.

Lemma parse_image_name_canonical (ref : string * string * string) :
  well_formed ref -> parse_image_name (canonical ref) = Ok ref.
Proof.
  destruct ref as [[registry repository] tag].
  intros (Htag & Hslash & Hreg). unfold canonical, parse_image_name.
  replace (registry ++ "/" ++ repository ++ ":" ++ tag)
    with ((registry ++ "/" ++ repository) ++ String ":" tag)
    by (rewrite !append_assoc; reflexivity).
  rewrite contains_append, contains_cons_same, orb_true_r.
  rewrite rsplit1_last by assumption. simpl unpack2. cbv iota beta zeta.
  change (registry ++ "/" ++ repository)
    with (registry ++ String "/" repository).
  rewrite contains_append, contains_cons_same, orb_true_r.
  rewrite split_append by assumption. simpl index0. cbv iota beta.
  rewrite Hreg. simpl tl.
  change "/" with (String "/"%char EmptyString) at 1.
  rewrite join_split. reflexivity.
Qed.

(** C2: the three worked examples of the reference parser. *)
Theorem parse_image_name_examples :
  parse_image_name "nginx:latest"
    = Ok ("docker.io", "library/nginx", "latest")
  /\ parse_image_name "myorg/myapp"
    = Ok ("docker.io", "myorg/myapp", "latest")
  /\ parse_image_name "myregistry.example.com:5000/team/app:v2"
    = Ok ("myregistry.example.com:5000", "team/app", "v2").
Proof. repeat split; reflexivity. Qed.

(** C3: parsing is idempotent.  Every input parses to a triple, and
    parsing the canonical reconstruction [registry/repository:tag] of
    that triple gives the same triple again. *)
Theorem parse_image_name_idempotent (image : string) :
  exists ref,
    parse_image_name image = Ok ref
    /\ parse_image_name (canonical ref) = Ok ref.
Proof.
  destruct (parse_image_name_well_formed image) as (ref & E & Hwf).
  exists ref. split; [exact E|]. now apply parse_image_name_canonical.
Qed.

(** C10: an input [host:rest] whose only colon is the one after the
    host, as in [host:port/path] without a tag, is cut at that colon:
    the registry stays the default one, the host becomes a repository
    under [library/] and everything after the colon becomes the tag. *)
Theorem parse_image_name_port_as_tag (host rest : string) :
  PyStr.contains ":" host = false ->
  PyStr.contains "/" host = false ->
  PyStr.contains ":" rest = false ->
  parse_image_name (host ++ ":" ++ rest)
    = Ok ("docker.io", "library/" ++ host, rest).
Proof.
  intros Hc Hs Hr. unfold parse_image_name.
  change (host ++ ":" ++ rest) with (host ++ String ":" rest).
  rewrite contains_append, contains_cons_same, orb_true_r.
  rewrite rsplit1_last by assumption. simpl unpack2. cbv iota beta zeta.
  rewrite Hs. reflexivity.
Qed.

(** ** The monad *)

Section MonadFacts.

Context {S : Type}.

Lemma never_raises_ret {A} (a : A) : never_raises (@ret S A a).
Proof. intros s. now exists a, s. Qed.

Lemma never_raises_bind {A B} (c : M S A) (k : A -> M S B) :
  never_raises c -> (forall a, never_raises (k a)) -> never_raises (bind c k).
Proof.
  intros Hc Hk s. unfold bind.
  destruct (Hc s) as (a & s1 & ->). apply Hk.
Qed.

(** A [try] whose handler returns never raises, whatever its body does. *)
Lemma never_raises_try {A} (c : M S A) (h : exn -> M S A) :
  (forall e, never_raises (h e)) -> never_raises (try_except c h).
Proof.
  intros Hh s. unfold try_except.
  destruct (c s) as [[a|e] s1]; [now exists a, s1 | apply Hh].
Qed.

Lemma never_raises_when (b : bool) (c : M S unit) :
  never_raises c -> never_raises (when b c).
Proof. destruct b; simpl; [auto | intros _; apply never_raises_ret]. Qed.

Lemma never_raises_for_each {A} (l : list A) (body : A -> M S unit) :
  (forall x, never_raises (body x)) -> never_raises (for_each l body).
Proof.
  intros Hb. induction l as [|x l IH]; simpl.
  - apply never_raises_ret.
  - apply never_raises_bind; auto.
Qed.

Lemma never_raises_get_local {L} : never_raises (@get_local L S).
Proof. intros s. now exists (fst s), s. Qed.

Lemma never_raises_update_local {L} (f : L -> L) :
  never_raises (@update_local L S f).
Proof. intros s. unfold update_local. eauto. Qed.

Lemma never_raises_outer {L A} (c : M S A) :
  never_raises c -> never_raises (@outer L S A c).
Proof.
  intros Hc s. unfold outer. destruct (Hc (snd s)) as (a & s1 & ->). eauto.
Qed.

Lemma never_raises_with_local {L A} (l0 : L) (c : M (L * S) A) :
  never_raises c -> never_raises (with_local l0 c).
Proof.
  intros Hc s. unfold with_local.
  destruct (Hc (l0, s)) as (a & s1 & ->). eauto.
Qed.

Section LogGrows.

Context {E : Type} (lg : S -> list E).

Lemma log_grows_ret {A} (a : A) : log_grows lg (@ret S A a).
Proof. intros s r s' [= _ <-]. exists []. now rewrite app_nil_r. Qed.

Lemma log_grows_lift {A} (r : result A) : log_grows lg (@lift S A r).
Proof. intros s r' s' [= _ <-]. exists []. now rewrite app_nil_r. Qed.

Lemma log_grows_bind {A B} (c : M S A) (k : A -> M S B) :
  log_grows lg c -> (forall a, log_grows lg (k a)) -> log_grows lg (bind c k).
Proof.
  intros Hc Hk s r s'. unfold bind.
  destruct (c s) as [[a|e] s1] eqn:Ec; destruct (Hc _ _ _ Ec) as (d1 & E1).
  - intros Ek. destruct (Hk _ _ _ _ Ek) as (d2 & E2).
    exists (d1 ++ d2)%list. now rewrite E2, E1, app_assoc.
  - intros [= _ <-]. now exists d1.
Qed.

Lemma log_grows_try {A} (c : M S A) (h : exn -> M S A) :
  log_grows lg c -> (forall e, log_grows lg (h e)) ->
  log_grows lg (try_except c h).
Proof.
  intros Hc Hh s r s'. unfold try_except.
  destruct (c s) as [[a|e] s1] eqn:Ec; destruct (Hc _ _ _ Ec) as (d1 & E1).
  - intros [= _ <-]. now exists d1.
  - intros Ek. destruct (Hh _ _ _ _ Ek) as (d2 & E2).
    exists (d1 ++ d2)%list. now rewrite E2, E1, app_assoc.
Qed.

Lemma log_grows_when (b : bool) (c : M S unit) :
  log_grows lg c -> log_grows lg (when b c).
Proof. destruct b; simpl; [auto | intros _; apply log_grows_ret]. Qed.

Lemma log_grows_for_each {A} (l : list A) (body : A -> M S unit) :
  (forall x, log_grows lg (body x)) -> log_grows lg (for_each l body).
Proof.
  intros Hb. induction l as [|x l IH]; simpl.
  - apply log_grows_ret.
  - apply log_grows_bind; auto.
Qed.

Lemma log_grows_get_local {L} :
  log_grows (fun s => lg (snd s)) (@get_local L S).
Proof. intros s r s' [= _ <-]. exists []. now rewrite app_nil_r. Qed.

Lemma log_grows_update_local {L} (f : L -> L) :
  log_grows (fun s => lg (snd s)) (@update_local L S f).
Proof. intros s r s' [= _ <-]. exists []. simpl. now rewrite app_nil_r. Qed.

Lemma log_grows_outer {L A} (c : M S A) :
  log_grows lg c -> log_grows (fun s => lg (snd s)) (@outer L S A c).
Proof.
  intros Hc s r s'. unfold outer.
  destruct (c (snd s)) as [r1 s1] eqn:Ec. intros [= _ <-].
  exact (Hc _ _ _ Ec).
Qed.

Lemma log_grows_with_local {L A} (l0 : L) (c : M (L * S) A) :
  log_grows (fun s => lg (snd s)) c -> log_grows lg (with_local l0 c).
Proof.
  intros Hc s r s'. unfold with_local.
  destruct (c (l0, s)) as [r1 ls] eqn:Ec. intros [= _ <-].
  exact (Hc _ _ _ Ec).
Qed.

End LogGrows.

End MonadFacts.

Create HintDb raises.

#[local] Hint Resolve never_raises_ret never_raises_bind never_raises_try
  never_raises_when never_raises_for_each never_raises_get_local
  never_raises_update_local never_raises_outer never_raises_with_local
  : raises.

(** Goes through a computation and shows that its log only grows. *)
Ltac log_grows_step :=
  first
    [ apply log_grows_ret | apply log_grows_lift | apply log_grows_get_local
    | apply log_grows_update_local | apply log_grows_outer
    | apply log_grows_with_local | apply log_grows_bind
    | apply log_grows_try | apply log_grows_when | apply log_grows_for_each
    | match goal with
      | |- log_grows _ (match ?x with _ => _ end) => destruct x
      | |- log_grows _ (if ?b then _ else _) => destruct b
      | |- forall _, _ => intro
      end ].

(** ** The validator *)

Section ValidatorFacts.

Variable World : Type.
Variable send : World -> Request -> result Response * World.
Variable clock : World -> Z.
Variable write_json : World -> string -> BatchResult -> result unit * World.
Variable parse_args : list string -> argparse_outcome.

Local Abbreviation State := (State World).
Local Abbreviation check_image_exists := (check_image_exists World send).
Local Abbreviation get_image_metadata := (get_image_metadata World send).
Local Abbreviation get_available_tags := (get_available_tags World send).
Local Abbreviation validate_single_image := (validate_single_image World send).
Local Abbreviation validated := (validated World send).
Local Abbreviation validate_image_list := (validate_image_list World send clock).
Local Abbreviation main_report := (main_report World write_json).
Local Abbreviation main := (main World send clock write_json parse_args).

Lemma never_raises_print (line : string) : never_raises (print World line).
Proof. intros s. unfold print. eauto. Qed.

Lemma log_grows_print (line : string) :
  log_grows calls (print World line).
Proof. intros s r s' [= _ <-]. exists []. simpl. now rewrite app_nil_r. Qed.

Lemma log_grows_call (req : Request) : log_grows calls (call World send req).
Proof.
  intros s r s'. unfold call.
  destruct (send (world s) req) as [r1 w]. intros [= _ <-]. simpl. eauto.
Qed.

Lemma log_grows_time_time : log_grows calls (time_time World clock).
Proof. intros s r s' [= _ <-]. exists []. now rewrite app_nil_r. Qed.

Local Hint Resolve never_raises_print : raises.

Ltac log_grows :=
  repeat first
    [ apply log_grows_print | apply log_grows_call | apply log_grows_time_time
    | log_grows_step ].

(** *** [check_image_exists] *)

Lemma check_image_exists_never_raises (registry repository tag : string) :
  never_raises (check_image_exists registry repository tag).
Proof. unfold check_image_exists. auto with raises. Qed.

Lemma check_image_exists_log_grows (registry repository tag : string) :
  log_grows calls (check_image_exists registry repository tag).
Proof.
  unfold check_image_exists, session_get, session_head. log_grows.
Qed.

(** Unfolds the monad, then splits on every call, condition and
    fallible step that the goal is stuck on. *)
Ltac run_step :=
  match goal with
  | |- context [send ?w ?r] =>
      let E := fresh "Esend" in destruct (send w r) as [[?|?] ?] eqn:E
  | |- context [match json ?r with _ => _ end] =>
      let E := fresh "Ejson" in destruct (json r) as [?|?] eqn:E
  | |- context [match py_get ?v ?k ?d with _ => _ end] =>
      let E := fresh "Eget" in destruct (py_get v k d) as [?|?] eqn:E
  | |- context [match py_slice_to ?n ?v with _ => _ end] =>
      let E := fresh "Eslice" in destruct (py_slice_to n v) as [?|?] eqn:E
  | |- context [match py_iter ?v with _ => _ end] =>
      let E := fresh "Eiter" in destruct (py_iter v) as [?|?] eqn:E
  | |- context [match comprehension ?f ?l with _ => _ end] =>
      let E := fresh "Ecomp" in destruct (comprehension f l) as [?|?] eqn:E
  | |- context [if ?b then _ else _] =>
      let E := fresh "Eif" in destruct b eqn:E
  end.

Ltac run_unfold :=
  unfold try_except, bind, when, ret, lift, with_local, outer, update_local,
    get_local, session_get, session_head, call, print;
  cbn [fst snd].

Ltac run_cases := repeat (run_step; cbn [fst snd world stdout calls]).

Ltac run := run_unfold; run_cases.


(** *** [get_image_metadata] *)

Lemma get_image_metadata_never_raises (registry repository tag : string) :
  never_raises (get_image_metadata registry repository tag).
Proof. unfold get_image_metadata. auto 10 with raises. Qed.


Lemma get_image_metadata_other_registry (registry repository tag : string)
    (st : State) :
  registry <> "docker.io" ->
  get_image_metadata registry repository tag st = (Ok [], st).
Proof.
  intros H. apply String.eqb_neq in H.
  unfold get_image_metadata. rewrite H. destruct st. reflexivity.
Qed.

Lemma get_image_metadata_degrades (registry repository tag : string)
    (st : State) :
  fetch_failed (fst (send (world st) (metadata_request repository))) = true ->
  fst (get_image_metadata registry repository tag st) = Ok [].
Proof.
  unfold get_image_metadata, metadata_request, fetch_failed. run_unfold.
  destruct (String.eqb registry "docker.io"); [|reflexivity].
  cbn [fst snd].
  destruct (send (world st) _) as [[response|e] w]; cbn [fst]; intros H.
  - apply negb_true_iff in H. rewrite H. reflexivity.
  - reflexivity.
Qed.

(** *** [get_available_tags] *)

Lemma get_available_tags_never_raises (registry repository : string) :
  never_raises (get_available_tags registry repository).
Proof. unfold get_available_tags. auto 10 with raises. Qed.


Lemma get_available_tags_other_registry (registry repository : string)
    (st : State) :
  registry <> "docker.io" ->
  get_available_tags registry repository st = (Ok [], st).
Proof.
  intros H. apply String.eqb_neq in H.
  unfold get_available_tags. rewrite H. destruct st. reflexivity.
Qed.

Lemma get_available_tags_degrades (registry repository : string)
    (st : State) :
  fetch_failed (fst (send (world st) (tags_request repository))) = true ->
  fst (get_available_tags registry repository st) = Ok [].
Proof.
  unfold get_available_tags, tags_request, fetch_failed. run_unfold.
  destruct (String.eqb registry "docker.io"); [|reflexivity].
  cbn [fst snd].
  destruct (send (world st) _) as [[response|e] w]; cbn [fst]; intros H.
  - apply negb_true_iff in H. rewrite H. reflexivity.
  - reflexivity.
Qed.

Lemma comprehension_length {A B} (f : A -> result B) (l : list A)
    (ys : list B) :
  comprehension f l = Ok ys -> List.length ys = List.length l.
Proof.
  revert ys. induction l as [|x l IH]; simpl; intros ys.
  - now intros [= <-].
  - destruct (f x); [|discriminate].
    destruct (comprehension f l); [|discriminate].
    intros [= <-]. simpl. now rewrite (IH _ eq_refl).
Qed.

Lemma chars_length (s : string) : List.length (chars s) = String.length s.
Proof. induction s; simpl; auto. Qed.

Lemma substring_length_le (n m : nat) (s : string) :
  String.length (String.substring n m s) <= m.
Proof.
  revert n m. induction s as [|a s IH]; intros [|n] [|m]; simpl; auto with arith.
Qed.

(** A slice [v[:n]] is visited in at most [n] steps. *)
Lemma slice_iter_length (n : nat) (v first : pyval) (items : list pyval) :
  py_slice_to n v = Ok first -> py_iter first = Ok items ->
  List.length items <= n.
Proof.
  destruct v; simpl; try discriminate; intros [= <-]; simpl; intros [= <-].
  - rewrite chars_length. apply substring_length_le.
  - rewrite length_firstn. apply Nat.le_min_l.
Qed.

Lemma get_available_tags_at_most_10 (registry repository : string)
    (st : State) :
  exists tags st',
    get_available_tags registry repository st = (Ok tags, st')
    /\ List.length tags <= 10.
Proof.
  unfold get_available_tags. run.
  all: do 2 eexists; split; [reflexivity|]; simpl; auto with arith.
  apply comprehension_length in Ecomp. rewrite Ecomp.
  eapply slice_iter_length; eauto.
Qed.

(** *** What the enrichment returns *)

Lemma py_item_name_inv (entry n : pyval) :
  py_item entry "name" = Ok n -> has_name entry n.
Proof.
  destruct entry; simpl; try discriminate.
  destruct (dict_get d "name") as [x|] eqn:E; [|discriminate].
  intros [= <-]. now exists d.
Qed.

Lemma comprehension_names_inv (l names : list pyval) :
  comprehension (fun result => py_item result "name") l = Ok names ->
  Forall2 has_name l names.
Proof.
  revert names. induction l as [|entry l IH]; simpl; intros names.
  - intros [= <-]. constructor.
  - destruct (py_item entry "name") as [n|] eqn:En; [|discriminate].
    destruct (comprehension _ l) as [ns|]; [|discriminate].
    intros [= <-]. constructor; [now apply py_item_name_inv | now apply IH].
Qed.

(** The characters of a string have no name: only the empty string
    goes through the comprehension. *)
Lemma comprehension_chars (s : string) (names : list pyval) :
  comprehension (fun result => py_item result "name") (chars s) = Ok names ->
  names = [].
Proof.
  destruct s; simpl; [now intros [= <-] | discriminate].
Qed.

(** [get_image_metadata] returns, in one of two ways.  Either the
    mapping is empty, or the fetch succeeded; and the mapping is empty
    whenever the handler ran, which is the only place where the
    function prints. *)
Lemma get_image_metadata_outcome (registry repository tag : string)
    (st : State) :
  exists metadata st',
    get_image_metadata registry repository tag st = (Ok metadata, st')
    /\ (stdout st' = stdout st \/ metadata = [])
    /\ (metadata = []
        \/ metadata_fetched send (world st) repository metadata).
Proof.
  unfold get_image_metadata. run_unfold. run_cases.
  all: do 2 eexists; split; [reflexivity|]; cbn [stdout]; auto.
  all: match goal with
       | H1 : py_get ?v _ _ = Ok _, H2 : py_get ?v _ _ = Raised _ |- _ =>
           exfalso; destruct v; discriminate
       | _ => idtac
       end.
  split; [now left|]. right.
  match goal with
  | Hj : json ?r = Ok ?v |- _ => destruct v; try discriminate
  end.
  cbn [py_get] in *.
  repeat match goal with
         | H : Ok _ = Ok _ |- _ => injection H as <-
         end.
  apply Z.eqb_eq in Eif0.
  unfold metadata_fetched, metadata_request.
  do 3 eexists. repeat split; eauto.
Qed.

(** [get_available_tags] returns, in one of two ways.  Either the list
    is empty, or the fetch succeeded; and the list is empty whenever
    the handler ran, which is the only place where the function
    prints. *)
Lemma get_available_tags_outcome (registry repository : string)
    (st : State) :
  exists tags st',
    get_available_tags registry repository st = (Ok tags, st')
    /\ (stdout st' = stdout st \/ tags = [])
    /\ (tags = [] \/ tags_fetched send (world st) repository tags).
Proof.
  unfold get_available_tags. run_unfold. run_cases.
  all: do 2 eexists; split; [reflexivity|]; cbn [stdout]; auto.
  split; [now left|].
  match goal with
  | Hj : json ?r = Ok ?v |- _ => destruct v; try discriminate
  end.
  cbn [py_get] in Eget. injection Eget as <-.
  apply Z.eqb_eq in Eif0.
  destruct (dict_get d "results") as [[]|] eqn:Er; try discriminate.
  - cbn in Eslice, Eiter. injection Eslice as <-. cbn in Eiter.
    injection Eiter as <-. left. eapply comprehension_chars; eauto.
  - cbn in Eslice. injection Eslice as <-. cbn in Eiter.
    injection Eiter as <-. right.
    unfold tags_fetched, tags_request.
    do 4 eexists. repeat split; eauto.
    now apply comprehension_names_inv.
  - cbn in Eslice. injection Eslice as <-. cbn in Eiter.
    injection Eiter as <-. cbn in Ecomp. injection Ecomp as <-. now left.
Qed.

(** *** [validate_single_image] *)

Lemma validate_single_image_found (image registry repository tag : string)
    (st st1 st2 st3 : State) (metadata : dict pyval) (tags : list pyval) :
  parse_image_name image = Ok (registry, repository, tag) ->
  check_image_exists registry repository tag st = (Ok true, st1) ->
  get_image_metadata registry repository tag st1 = (Ok metadata, st2) ->
  get_available_tags registry repository st2 = (Ok tags, st3) ->
  validate_single_image image st
  = (Ok (mkValidationResult image true (Some registry) (Some repository)
           (Some tag) tags metadata []), st3).
Proof.
  intros Hparse Hcheck Hmeta Htags.
  unfold validate_single_image. run_unfold.
  rewrite Hparse. cbn [fst snd]. rewrite Hcheck. cbn [fst snd].
  rewrite Hmeta. cbn [fst snd]. rewrite Htags. reflexivity.
Qed.

Lemma validate_single_image_not_found (image registry repository tag : string)
    (st st1 : State) :
  parse_image_name image = Ok (registry, repository, tag) ->
  check_image_exists registry repository tag st = (Ok false, st1) ->
  validate_single_image image st
  = (Ok (mkValidationResult image false (Some registry) (Some repository)
           (Some tag) [] []
           ["Image " ++ image ++ " not found in registry " ++ registry]), st1).
Proof.
  intros Hparse Hcheck.
  unfold validate_single_image. run_unfold.
  rewrite Hparse. cbn [fst snd]. rewrite Hcheck. reflexivity.
Qed.

Lemma validate_single_image_validated (image : string) (st : State) :
  exists r st',
    validate_single_image image st = (Ok r, st') /\ validated image st r st'.
Proof.
  destruct (parse_image_name_well_formed image)
    as ([[registry repository] tag] & Hparse & _).
  destruct (check_image_exists_never_raises registry repository tag st)
    as ([|] & st1 & Hcheck).
  - destruct (get_image_metadata_never_raises registry repository tag st1)
      as (metadata & st2 & Hmeta).
    destruct (get_available_tags_never_raises registry repository st2)
      as (tags & st3 & Htags).
    do 2 eexists. split.
    + eapply validate_single_image_found; eauto.
    + econstructor; eauto.
  - do 2 eexists. split.
    + eapply validate_single_image_not_found; eauto.
    + econstructor; eauto.
Qed.

Lemma validate_single_image_never_raises (image : string) :
  never_raises (validate_single_image image).
Proof.
  intros st. destruct (validate_single_image_validated image st)
    as (r & st' & E & _). eauto.
Qed.

Lemma validate_single_image_log_grows (image : string) :
  log_grows calls (validate_single_image image).
Proof.
  unfold validate_single_image. log_grows.
Qed.


(** *** [validate_image_list] *)

Lemma never_raises_time_time : never_raises (time_time World clock).
Proof. intros s. unfold time_time. eauto. Qed.

Lemma validate_image_list_never_raises (images : list string) :
  never_raises (validate_image_list images).
Proof.
  unfold validate_image_list.
  apply never_raises_bind; [apply never_raises_time_time|]. intros now.
  apply never_raises_with_local, never_raises_bind;
    [|intros; apply never_raises_get_local].
  apply never_raises_for_each. intros image.
  repeat (apply never_raises_bind; [|intros]); auto with raises.
  apply never_raises_outer, validate_single_image_never_raises.
Qed.



(** ** Claims about the validator *)


(** C5: the tag list never holds more than 10 entries, as returned by
    [get_available_tags] and as stored in the [tags] field of a
    validation result. *)
Theorem tags_at_most_10 :
  (forall registry repository st, exists tags st',
      get_available_tags registry repository st = (Ok tags, st')
      /\ List.length tags <= 10)
  /\ (forall image st, exists r st',
        validate_single_image image st = (Ok r, st')
        /\ List.length (vr_tags r) <= 10).
Proof.
  split.
  - apply get_available_tags_at_most_10.
  - intros image st.
    destruct (validate_single_image_validated image st) as (r & st' & E & Hv).
    exists r, st'. split; [exact E|].
    destruct Hv as [registry repository tag st1 st2 st3 metadata tags _ _ _ Htags
                   | ]; simpl; [|auto with arith].
    destruct (get_available_tags_at_most_10 registry repository st2)
      as (tags' & st3' & E' & Hle).
    rewrite Htags in E'. now injection E' as <- _.
Qed.

(** C6 (amended): [main] checks the command once [argparse] has
    accepted the command line.  When [parse_args] leaves the process
    (a usage error such as a missing image, or [--help]), [main] ends
    with the status of [argparse]: the command is not looked at,
    nothing is printed by [main] and no network call is made.  When
    [parse_args] returns a namespace and its command is not the
    sentinel, [main] prints one error line and exits with status 1: the
    world is untouched and no network call is made.  When the command
    is the sentinel, [main] runs [validate_image_list] on the images
    and goes on to the report. *)
Theorem main_checks_command (argv : list string) (st : State) :
  match parse_args argv with
  | ArgparseExit code => main argv st = (SystemExit code, st)
  | Parsed args =>
      if String.eqb (command args) sentinel
      then
        exists res st1,
          validate_image_list (images args) st = (Ok res, st1)
          /\ main argv st
             = (exit_of (fst (main_report args res st1)),
                snd (main_report args res st1))
      else
        main argv st
        = (SystemExit 1,
           mkState (world st)
             (stdout st ++ [unknown_command_message (command args)])%list
             (calls st))
  end.
Proof.
  unfold main. destruct (parse_args argv) as [args|code]; [|reflexivity].
  destruct (String.eqb (command args) sentinel); cbn [negb]; [|reflexivity].
  destruct (validate_image_list_never_raises (images args) st)
    as (res & st1 & E).
  exists res, st1. split; [exact E|].
  unfold bind. rewrite E.
  destruct (main_report args res st1) as [[u|e] st2]; reflexivity.
Qed.

(** C7: enrichment exists for the default public registry only.  For
    any other registry, [get_image_metadata] returns an empty mapping
    and [get_available_tags] an empty list, and neither touches the
    network. *)
Theorem enrichment_only_for_docker_io
    (registry repository tag : string) (st : State) :
  registry <> "docker.io" ->
  get_image_metadata registry repository tag st = (Ok [], st)
  /\ get_available_tags registry repository st = (Ok [], st).
Proof.
  intros H. split.
  - now apply get_image_metadata_other_registry.
  - now apply get_available_tags_other_registry.
Qed.

(** C8: enrichment failures degrade.  For an image that is found to
    exist, both fetches return without raising and the validation
    completes with [exists == True] and no error.  A fetch that fails
    leaves its part empty: the metadata are empty when the request
    raises or answers with another status than 200, and whenever an
    exception was caught (the handler, which alone prints, has run);
    they are not empty only when the request was answered 200 with an
    object, and then hold its four fields.  In the same way the tag
    list is empty when the request raises or answers with another
    status than 200, and whenever an exception was caught; it is not
    empty only when the request was answered 200 with an object whose
    [results] is a list with a name in each of its first ten entries,
    and then holds these names: no part of a listing that failed is
    kept. *)
Theorem enrichment_failures_degrade
    (image registry repository tag : string) (st st1 : State) :
  parse_image_name image = Ok (registry, repository, tag) ->
  check_image_exists registry repository tag st = (Ok true, st1) ->
  exists metadata st2 tags st3,
    get_image_metadata registry repository tag st1 = (Ok metadata, st2)
    /\ get_available_tags registry repository st2 = (Ok tags, st3)
    /\ validate_single_image image st
       = (Ok (mkValidationResult image true (Some registry) (Some repository)
                (Some tag) tags metadata []), st3)
    /\ (fetch_failed (fst (send (world st1) (metadata_request repository)))
        = true -> metadata = [])
    /\ (fetch_failed (fst (send (world st2) (tags_request repository)))
        = true -> tags = [])
    /\ (stdout st2 <> stdout st1 -> metadata = [])
    /\ (stdout st3 <> stdout st2 -> tags = [])
    /\ (metadata = []
        \/ metadata_fetched send (world st1) repository metadata)
    /\ (tags = [] \/ tags_fetched send (world st2) repository tags).
Proof.
  intros Hparse Hcheck.
  destruct (get_image_metadata_outcome registry repository tag st1)
    as (metadata & st2 & Hmeta & Hmprint & Hmfetch).
  destruct (get_available_tags_outcome registry repository st2)
    as (tags & st3 & Htags & Htprint & Htfetch).
  exists metadata, st2, tags, st3.
  split; [exact Hmeta|]. split; [exact Htags|]. split.
  { eapply validate_single_image_found; eauto. }
  split; [|split; [|split; [|split; [|split]]]].
  - intros Hfail.
    apply (get_image_metadata_degrades registry repository tag) in Hfail.
    rewrite Hmeta in Hfail. now injection Hfail.
  - intros Hfail.
    apply (get_available_tags_degrades registry repository) in Hfail.
    rewrite Htags in Hfail. now injection Hfail.
  - intros Hprinted. destruct Hmprint; [contradiction | assumption].
  - intros Hprinted. destruct Htprint; [contradiction | assumption].
  - exact Hmfetch.
  - exact Htfetch.
Qed.

(** C9: in every result of [validate_single_image], [exists] is true
    exactly when [errors] is empty: no error when the image exists, at
    least one when it does not. *)
Theorem exists_iff_no_errors (image : string) (st : State) :
  exists r st',
    validate_single_image image st = (Ok r, st')
    /\ vr_exists r = Nat.eqb (List.length (vr_errors r)) 0
    /\ (if vr_exists r
        then vr_errors r = []
        else 1 <= List.length (vr_errors r)).
Proof.
  destruct (validate_single_image_validated image st) as (r & st' & E & Hv).
  exists r, st'. split; [exact E|].
  destruct Hv; simpl; auto.
Qed.

End ValidatorFacts.

(* ================================================================= *)
(** * Instances on concrete worlds *)


(** On that batch the summary of [main] counts one failed validation,
    although the only result has [exists == True]. *)
Lemma duplicate_image_phantom_failure :
  exists st',
    main unit Scenario.up Scenario.clock Scenario.write_json
      Scenario.parse_args [sentinel; "nginx"; "nginx"] Scenario.start
    = (Returned, st')
    /\ firstn 2 (rev (stdout st'))
       = ["Failed validations: 1"; "Successful validations: 1"].
Proof. eexists. split; [vm_compute; reflexivity | reflexivity]. Qed.


(** C10 on [myregistry.example.com:5000/team/app]. *)
Lemma parse_image_name_port_as_tag_witness :
  (PyStr.contains ":" "myregistry.example.com" = false
   /\ PyStr.contains "/" "myregistry.example.com" = false
   /\ PyStr.contains ":" "5000/team/app" = false)
  /\ parse_image_name "myregistry.example.com:5000/team/app"
     = Ok ("docker.io", "library/myregistry.example.com", "5000/team/app").
Proof.
  split; [repeat split|].
  apply (parse_image_name_port_as_tag "myregistry.example.com" "5000/team/app");
    reflexivity.
Defined.


(** C6 as stated fails on command lines that [argparse] rejects: with
    the command alone, [images] is missing and the process exits with
    status 2.  For [deploy] the status is not 1 and [main] prints no
    line; for the sentinel alone no validation follows: the state is
    the initial one, without any network call. *)
Lemma command_alone_exits_2 :
  main unit Scenario.up Scenario.clock Scenario.write_json
    Cases.parse_args_plain ["deploy"] Scenario.start
  = (SystemExit 2, Scenario.start)
  /\ main unit Scenario.up Scenario.clock Scenario.write_json
       Cases.parse_args_plain [sentinel] Scenario.start
     = (SystemExit 2, Scenario.start).
Proof. split; reflexivity. Qed.

(** C6 (amended) on the command lines [deploy], [deploy nginx] and
    [!docker-image-validation nginx]. *)
Lemma main_checks_command_witness :
  main unit Scenario.down Scenario.clock Scenario.write_json
    Cases.parse_args_plain ["deploy"] Scenario.start
  = (SystemExit 2, Scenario.start)
  /\ main unit Scenario.down Scenario.clock Scenario.write_json
       Cases.parse_args_plain ["deploy"; "nginx"] Scenario.start
     = (SystemExit 1,
        mkState tt
          ["Error: Unknown command 'deploy'. Expected '!docker-image-validation'"]
          [])
  /\ exists res st1,
      validate_image_list unit Scenario.down Scenario.clock ["nginx"]
        Scenario.start = (Ok res, st1)
      /\ main unit Scenario.down Scenario.clock Scenario.write_json
           Cases.parse_args_plain [sentinel; "nginx"] Scenario.start
         = (exit_of (fst (main_report unit Scenario.write_json
                            (mkArgs sentinel ["nginx"] None false) res st1)),
            snd (main_report unit Scenario.write_json
                   (mkArgs sentinel ["nginx"] None false) res st1)).
Proof.
  split; [|split].
  - exact (main_checks_command unit Scenario.down Scenario.clock
             Scenario.write_json Cases.parse_args_plain ["deploy"]
             Scenario.start).
  - exact (main_checks_command unit Scenario.down Scenario.clock
             Scenario.write_json Cases.parse_args_plain ["deploy"; "nginx"]
             Scenario.start).
  - exact (main_checks_command unit Scenario.down Scenario.clock
             Scenario.write_json Cases.parse_args_plain [sentinel; "nginx"]
             Scenario.start).
Defined.

(** C7 on the registry [ghcr.io]. *)
Lemma enrichment_only_for_docker_io_witness :
  "ghcr.io" <> "docker.io"
  /\ get_image_metadata unit Scenario.up "ghcr.io" "team/app" "v2" Scenario.start
     = (Ok [], Scenario.start)
  /\ get_available_tags unit Scenario.up "ghcr.io" "team/app" Scenario.start
     = (Ok [], Scenario.start).
Proof.
  split; [discriminate|].
  apply (enrichment_only_for_docker_io unit Scenario.up "ghcr.io" "team/app"
           "v2" Scenario.start).
  discriminate.
Defined.

(** C8 on [nginx:latest] where the image is found and the public web
    API answers 404 to both fetches. *)
Lemma enrichment_failures_degrade_witness :
  exists st1,
    parse_image_name "nginx:latest" = Ok ("docker.io", "library/nginx", "latest")
    /\ check_image_exists unit Scenario.hub_missing
         "docker.io" "library/nginx" "latest" Scenario.start = (Ok true, st1)
    /\ fetch_failed (fst (Scenario.hub_missing (world st1)
                            (metadata_request "library/nginx"))) = true
    /\ exists r st3,
        validate_single_image unit Scenario.hub_missing "nginx:latest"
          Scenario.start = (Ok r, st3)
        /\ vr_exists r = true /\ vr_metadata r = [] /\ vr_tags r = []
        /\ vr_errors r = [].
Proof.
  eexists. split; [reflexivity|]. split; [vm_compute; reflexivity|].
  split; [reflexivity|].
  destruct (enrichment_failures_degrade unit Scenario.hub_missing
              "nginx:latest" "docker.io" "library/nginx" "latest"
              Scenario.start _ eq_refl eq_refl)
    as (metadata & st2 & tags & st3 & _ & _ & E & Hm & Ht & _).
  rewrite E. do 2 eexists. split; [reflexivity|]. simpl.
  split; [reflexivity|]. split; [apply Hm; reflexivity|].
  split; [|reflexivity]. apply Ht. destruct st2 as [[] out log]. reflexivity.
Defined.

(** C8 on [nginx:latest] where the image is found and the second entry
    of the tag listing has no name: the exception is caught after a
    200 answer, and no tag is kept, not even the first. *)
Lemma enrichment_failures_degrade_after_200 :
  exists r st3,
    validate_single_image unit Cases.broken_listing "nginx:latest"
      Scenario.start = (Ok r, st3)
    /\ vr_exists r = true /\ vr_errors r = [] /\ vr_tags r = []
    /\ last (stdout st3) "" = "Error getting tags: 'name'".
Proof. do 2 eexists. split; [vm_compute; reflexivity|]. repeat split. Qed.

(* ================================================================= *)
(** * Further properties of the reference parser *)

Section MoreStringFacts.

Variable c : ascii.

Lemma contains_of_prefix (p s : string) :
  String.prefix p s = true ->
  PyStr.contains c p = true -> PyStr.contains c s = true.
Proof.
  revert s. induction p as [|a p IH]; intros [|b s]; simpl; try discriminate.
  destruct (ascii_dec a b) as [<-|]; [|discriminate].
  intros Hp. destruct (Ascii.eqb a c); [reflexivity | now apply IH].
Qed.

Lemma split_absent (s : string) :
  PyStr.contains c s = false -> PyStr.split c s = [s].
Proof.
  induction s as [|a s IH]; simpl; [reflexivity|].
  destruct (Ascii.eqb a c); [discriminate|].
  intros H. now rewrite (IH H).
Qed.

(** A string that holds the separator is its first part, the
    separator, and the other parts joined again. *)
Lemma split_present (s : string) :
  PyStr.contains c s = true ->
  exists p0 rest,
    PyStr.split c s = p0 :: rest
    /\ s = p0 ++ String c (PyStr.join (String c EmptyString) rest).
Proof.
  induction s as [|a s IH]; simpl; [discriminate|].
  destruct (Ascii.eqb a c) eqn:E.
  - intros _. apply Ascii.eqb_eq in E. subst a.
    exists EmptyString, (PyStr.split c s). split; [reflexivity|].
    simpl. now rewrite join_split.
  - intros H. destruct (IH H) as (p0 & rest & Es & Hs).
    rewrite Es. exists (String a p0), rest. split; [reflexivity|].
    simpl. now rewrite <- Hs.
Qed.

End MoreStringFacts.

(** An occurrence of [old] that holds [c] cannot start in a string
    without [c]: [replace] leaves such a string alone. *)
Lemma replace_absent (c : ascii) (old new s : string) :
  PyStr.contains c old = true -> PyStr.contains c s = false ->
  PyStr.replace old new s = s.
Proof.
  intros Hold. unfold PyStr.replace.
  induction s as [|a s IH]; [reflexivity|].
  intros Hs. cbn [PyStr.replace_from].
  destruct (String.prefix old (String a s)) eqn:Hp.
  - rewrite (contains_of_prefix c _ _ Hp Hold) in Hs. discriminate.
  - simpl in Hs. destruct (Ascii.eqb a c); [discriminate|].
    now rewrite (IH Hs).
Qed.

Lemma hub_repo_name_official (name : string) :
  PyStr.contains "/" name = false ->
  hub_repo_name ("library/" ++ name) = name.
Proof.
  intros H. unfold hub_repo_name, PyStr.startswith, PyStr.replace.
  assert (Hp : String.prefix "" name = true) by (destruct name; reflexivity).
  simpl. rewrite !Hp.
  now apply (replace_absent "/").
Qed.

(** X1: every input parses, and the triple obeys three invariants: the
    tag holds no colon, the registry holds no slash, and the registry
    holds a dot or a colon. *)
Theorem parsed_reference_invariants (image : string) :
  exists registry repository tag,
    parse_image_name image = Ok (registry, repository, tag)
    /\ PyStr.contains ":" tag = false
    /\ PyStr.contains "/" registry = false
    /\ PyStr.contains "." registry || PyStr.contains ":" registry = true.
Proof.
  destruct (parse_image_name_well_formed image)
    as ([[registry repository] tag] & E & Hwf).
  now exists registry, repository, tag.
Qed.

(** X2: formatting then parsing is the identity.  A registry without
    slash that holds a dot or a colon, any repository and a tag without
    colon are read back from [registry/repository:tag] unchanged. *)
Theorem canonical_round_trip (registry repository tag : string) :
  PyStr.contains ":" tag = false ->
  PyStr.contains "/" registry = false ->
  PyStr.contains "." registry || PyStr.contains ":" registry = true ->
  parse_image_name (registry ++ "/" ++ repository ++ ":" ++ tag)
  = Ok (registry, repository, tag).
Proof.
  intros Ht Hs Hr.
  apply (parse_image_name_canonical (registry, repository, tag)).
  repeat split; assumption.
Qed.

(** X3: a bare name, without colon and slash, is an official image:
    default registry, repository under [library/], tag [latest]; and
    the public web API is asked for the bare name again. *)
Theorem bare_name_is_official (name : string) :
  PyStr.contains ":" name = false ->
  PyStr.contains "/" name = false ->
  parse_image_name name = Ok ("docker.io", "library/" ++ name, "latest")
  /\ hub_repo_name ("library/" ++ name) = name.
Proof.
  intros Hc Hs. split.
  - unfold parse_image_name. rewrite Hc, Hs. reflexivity.
  - now apply hub_repo_name_official.
Qed.

(** X4: an explicit registry without a tag.  When the first segment
    holds a dot and no colon, and no colon follows, the first segment
    is the registry, the rest is the repository (empty when nothing
    follows the slash) and the tag is [latest]. *)
Theorem registry_without_tag (registry repository : string) :
  PyStr.contains "/" registry = false ->
  PyStr.contains ":" registry = false ->
  PyStr.contains "." registry = true ->
  PyStr.contains ":" repository = false ->
  parse_image_name (registry ++ "/" ++ repository)
  = Ok (registry, repository, "latest").
Proof.
  intros Hs Hc Hd Hr. unfold parse_image_name.
  change (registry ++ "/" ++ repository)
    with (registry ++ String "/" repository).
  rewrite (contains_append ":"), Hc. cbn [orb PyStr.contains Ascii.eqb].
  cbn -[PyStr.split PyStr.contains PyStr.join String.append].
  rewrite Hr.
  rewrite (contains_append "/"), contains_cons_same, orb_true_r.
  rewrite split_append by assumption. cbn [index0 tl].
  rewrite Hd. cbn [orb].
  change "/" with (String "/"%char EmptyString) at 1.
  now rewrite join_split.
Qed.

(** X5: a first segment without dot and colon is never a registry:
    the whole path is a repository of the default registry, with the
    given tag or with [latest]. *)
Theorem namespace_is_not_registry (namespace rest tag : string) :
  PyStr.contains "/" namespace = false ->
  PyStr.contains ":" namespace = false ->
  PyStr.contains "." namespace = false ->
  (PyStr.contains ":" tag = false ->
   parse_image_name (namespace ++ "/" ++ rest ++ ":" ++ tag)
   = Ok ("docker.io", namespace ++ "/" ++ rest, tag))
  /\ (PyStr.contains ":" rest = false ->
      parse_image_name (namespace ++ "/" ++ rest)
      = Ok ("docker.io", namespace ++ "/" ++ rest, "latest")).
Proof.
  intros Hs Hc Hd.
  assert (Hbody : forall tag' : string,
             (if PyStr.contains "/" (namespace ++ String "/" rest)
              then
                match index0 (PyStr.split "/" (namespace ++ String "/" rest))
                      return result (string * string * string) with
                | Raised e => Raised e
                | Ok p0 =>
                    if PyStr.contains "." p0 || PyStr.contains ":" p0
                    then Ok (p0, PyStr.join "/"
                                   (tl (PyStr.split "/"
                                          (namespace ++ String "/" rest))),
                             tag')
                    else Ok ("docker.io", namespace ++ String "/" rest, tag')
                end
              else Ok ("docker.io",
                       "library/" ++ namespace ++ String "/" rest, tag'))
             = (Ok ("docker.io", namespace ++ String "/" rest, tag')
                : result (string * string * string))).
  { intros tag'.
    rewrite (contains_append "/"), contains_cons_same, orb_true_r.
    rewrite split_append by assumption. cbn [index0].
    now rewrite Hd, Hc. }
  split; intros H; unfold parse_image_name.
  - replace (namespace ++ "/" ++ rest ++ ":" ++ tag)
      with ((namespace ++ String "/" rest) ++ String ":" tag)
      by (rewrite !append_assoc; reflexivity).
    rewrite (contains_append ":"), contains_cons_same, orb_true_r.
    rewrite rsplit1_last by assumption. cbn [unpack2].
    apply Hbody.
  - change (namespace ++ "/" ++ rest) with (namespace ++ String "/" rest).
    rewrite (contains_append ":"), Hc. cbn [orb PyStr.contains Ascii.eqb].
    cbn -[PyStr.split PyStr.contains PyStr.join String.append index0].
    rewrite H. apply Hbody.
Qed.

(** X6: parsing loses no character.  The input is a body, followed by
    a colon and the tag unless the tag is the default one; the body is
    [registry/repository], or the repository itself on the default
    registry, or the repository without its [library/] on the default
    registry. *)
Theorem parse_loses_nothing (image registry repository tag : string) :
  parse_image_name image = Ok (registry, repository, tag) ->
  exists body,
    (image = body ++ ":" ++ tag \/ (image = body /\ tag = "latest"))
    /\ (body = registry ++ "/" ++ repository
        \/ (registry = "docker.io" /\ body = repository)
        \/ (registry = "docker.io" /\ repository = "library/" ++ body)).
Proof.
  unfold parse_image_name.
  assert (Hcut : exists body tag',
             (if PyStr.contains ":" image
              then unpack2 (PyStr.rsplit1 ":" image)
              else Ok (image, default_tag)) = Ok (body, tag')
             /\ (image = body ++ ":" ++ tag'
                 \/ (image = body /\ tag' = "latest"))).
  { destruct (PyStr.contains ":" image) eqn:Hc.
    - destruct (rsplit1_present _ _ Hc) as (h & t & E & Hs & _).
      rewrite E. exists h, t. split; [reflexivity | now left].
    - exists image, default_tag. split; [reflexivity | now right]. }
  destruct Hcut as (body & tag' & -> & Hcut).
  destruct (PyStr.contains "/" body) eqn:Hslash.
  - destruct (split_present _ _ Hslash) as (p0 & rest & Es & Hbody).
    cbv zeta. rewrite Es. cbn [index0 tl].
    destruct (PyStr.contains "." p0 || PyStr.contains ":" p0).
    + intros [= <- <- <-]. exists body. split; [exact Hcut|].
      left. exact Hbody.
    + intros [= <- <- <-]. exists body. split; [exact Hcut|].
      right. left. split; reflexivity.
  - intros [= <- <- <-]. exists body. split; [exact Hcut|].
    right. right. split; reflexivity.
Qed.

(* ================================================================= *)
(** * Further properties of the validator *)

Section MoreValidatorFacts.

Variable World : Type.
Variable send : World -> Request -> result Response * World.
Variable clock : World -> Z.
Variable write_json : World -> string -> BatchResult -> result unit * World.
Variable parse_args : list string -> argparse_outcome.

Local Abbreviation State := (State World).
Local Abbreviation check_image_exists := (check_image_exists World send).
Local Abbreviation get_image_metadata := (get_image_metadata World send).
Local Abbreviation get_available_tags := (get_available_tags World send).
Local Abbreviation validate_single_image := (validate_single_image World send).
Local Abbreviation validated := (validated World send).
Local Abbreviation validate_image_list := (validate_image_list World send clock).
Local Abbreviation main_report := (main_report World write_json).
Local Abbreviation print_entry := (print_entry World).
Local Abbreviation main := (main World send clock write_json parse_args).

Ltac unfold_monad :=
  unfold try_except, bind, when, ret, lift, with_local, outer, update_local,
    get_local, session_get, session_head, call, print;
  cbn [fst snd].

Ltac split_step :=
  match goal with
  | |- context [send ?w ?r] =>
      let E := fresh "Esend" in destruct (send w r) as [[?|?] ?] eqn:E
  | |- context [match json ?r with _ => _ end] =>
      let E := fresh "Ejson" in destruct (json r) as [?|?] eqn:E
  | |- context [match py_get ?v ?k ?d with _ => _ end] =>
      let E := fresh "Eget" in destruct (py_get v k d) as [?|?] eqn:E
  | |- context [match py_slice_to ?n ?v with _ => _ end] =>
      let E := fresh "Eslice" in destruct (py_slice_to n v) as [?|?] eqn:E
  | |- context [match py_iter ?v with _ => _ end] =>
      let E := fresh "Eiter" in destruct (py_iter v) as [?|?] eqn:E
  | |- context [match comprehension ?f ?l with _ => _ end] =>
      let E := fresh "Ecomp" in destruct (comprehension f l) as [?|?] eqn:E
  | |- context [if ?b then _ else _] =>
      let E := fresh "Eif" in destruct b eqn:E
  end.

Ltac split_cases := repeat (split_step; cbn [fst snd world stdout calls]).

(** ** [check_image_exists] *)


(** X8: with a token, the public web API is not consulted.  When the
    auth endpoint answers 200 with an object whose [token] is truthy,
    exactly two calls are made, the token request and the [HEAD] of the
    manifest with that token, and the image exists exactly when the
    second returns with status 200. *)
Theorem token_decides (repository tag : string) (st : State)
    (response : Response) (w1 : World) (d : dict pyval) (token : pyval) :
  send (world st) (auth_request repository) = (Ok response, w1) ->
  status_code response = 200%Z ->
  json response = Ok (PDict d) ->
  dict_get d "token" = Some token ->
  truthy token = true ->
  exists st',
    check_image_exists "docker.io" repository tag st
    = (Ok (negb (fetch_failed
                   (fst (send w1 (manifest_request repository tag token))))),
       st')
    /\ calls st'
       = (calls st
            ++ [(auth_request repository, Ok response);
                (manifest_request repository tag token,
                 fst (send w1 (manifest_request repository tag token)))])%list.
Proof.
  intros Hsend Hstatus Hjson Htoken Htruthy.
  unfold check_image_exists, auth_request, manifest_request in *.
  cbn [String.eqb Ascii.eqb Bool.eqb]. unfold_monad.
  rewrite Hsend. cbn [fst snd world stdout calls].
  rewrite Hstatus. cbn [Z.eqb Pos.eqb]. rewrite Hjson.
  cbn [py_get]. rewrite Htoken, Htruthy. cbn [fst snd world stdout calls].
  destruct (send w1 _) as [[response2|e] w2]; cbn [fst snd fetch_failed].
  - eexists. rewrite negb_involutive, <- app_assoc. split; reflexivity.
  - eexists. rewrite <- app_assoc. split; reflexivity.
Qed.

(** X9: without a token, the public web API decides.  When the auth
    endpoint answers with another status than 200, or with an object
    whose [token] is missing or falsy, the tag is looked up in the
    public web API, and the image exists exactly when that request
    returns with status 200. *)
Theorem fallback_decides (repository tag : string) (st : State)
    (response : Response) (w1 : World) :
  send (world st) (auth_request repository) = (Ok response, w1) ->
  token_refused response = true ->
  exists st',
    check_image_exists "docker.io" repository tag st
    = (Ok (negb (fetch_failed
                   (fst (send w1 (hub_tag_request repository tag))))),
       st')
    /\ calls st'
       = (calls st
            ++ [(auth_request repository, Ok response);
                (hub_tag_request repository tag,
                 fst (send w1 (hub_tag_request repository tag)))])%list.
Proof.
  intros Hsend Hrefused.
  unfold check_image_exists, auth_request, hub_tag_request, token_refused in *.
  cbn [String.eqb Ascii.eqb Bool.eqb]. unfold_monad.
  rewrite Hsend. cbn [fst snd world stdout calls].
  destruct (status_code response =? 200)%Z.
  - destruct (json response) as [[]|]; try discriminate.
    cbn [py_get] in *. apply negb_true_iff in Hrefused. rewrite Hrefused.
    cbn [fst snd world stdout calls].
    destruct (send w1 _) as [[response2|e] w2]; cbn [fst snd fetch_failed].
    + eexists. rewrite negb_involutive, <- app_assoc. split; reflexivity.
    + eexists. rewrite <- app_assoc. split; reflexivity.
  - cbn [fst snd world stdout calls].
    destruct (send w1 _) as [[response2|e] w2]; cbn [fst snd fetch_failed].
    + eexists. rewrite negb_involutive, <- app_assoc. split; reflexivity.
    + eexists. rewrite <- app_assoc. split; reflexivity.
Qed.


(** ** Calls *)

Lemma prefix_empty (s : string) : String.prefix "" s = true.
Proof. destruct s; reflexivity. Qed.

(** What [check_image_exists] sends: one or two session requests. *)
Lemma check_image_exists_calls (registry repository tag : string)
    (st st' : State) (r : result bool) :
  check_image_exists registry repository tag st = (r, st') ->
  exists d,
    calls st' = (calls st ++ d)%list
    /\ 1 <= List.length d <= 2
    /\ forallb session_request (map fst d) = true.
Proof.
  unfold check_image_exists. unfold_monad. split_cases.
  all: intros [= _ <-]; cbn [calls].
  all: eexists; split; [rewrite <- ?app_assoc; reflexivity|].
  all: split; [simpl; lia|].
  all: cbn -[String.append]; unfold session_request; cbn;
    rewrite ?prefix_empty; reflexivity.
Qed.

Lemma get_image_metadata_calls (registry repository tag : string)
    (st st' : State) (r : result (dict pyval)) :
  get_image_metadata registry repository tag st = (r, st') ->
  exists d,
    calls st' = (calls st ++ d)%list
    /\ List.length d <= 1
    /\ forallb session_request (map fst d) = true.
Proof.
  unfold get_image_metadata. unfold_monad. split_cases.
  all: intros [= _ <-]; cbn [calls].
  all: try (exists []; rewrite app_nil_r; repeat split; simpl; lia).
  all: eexists; split; [reflexivity|].
  all: split; [simpl; lia | reflexivity].
Qed.

Lemma get_available_tags_calls (registry repository : string)
    (st st' : State) (r : result (list pyval)) :
  get_available_tags registry repository st = (r, st') ->
  exists d,
    calls st' = (calls st ++ d)%list
    /\ List.length d <= 1
    /\ forallb session_request (map fst d) = true.
Proof.
  unfold get_available_tags. unfold_monad. split_cases.
  all: intros [= _ <-]; cbn [calls].
  all: try (exists []; rewrite app_nil_r; repeat split; simpl; lia).
  all: eexists; split; [reflexivity|].
  all: split; [simpl; lia | reflexivity].
Qed.

Lemma validated_calls (image : string) (st st' : State)
    (r : ValidationResult) :
  validated image st r st' ->
  exists d,
    calls st' = (calls st ++ d)%list
    /\ 1 <= List.length d <= (if vr_exists r then 4 else 2)
    /\ forallb session_request (map fst d) = true.
Proof.
  intros [registry repository tag st1 st2 st3 metadata tags _ Hcheck Hmeta Htags
         | registry repository tag st1 _ Hcheck].
  - destruct (check_image_exists_calls _ _ _ _ _ _ Hcheck)
      as (d1 & E1 & L1 & F1).
    destruct (get_image_metadata_calls _ _ _ _ _ _ Hmeta)
      as (d2 & E2 & L2 & F2).
    destruct (get_available_tags_calls _ _ _ _ _ Htags)
      as (d3 & E3 & L3 & F3).
    exists (d1 ++ d2 ++ d3)%list. split; [|split].
    + rewrite E3, E2, E1, <- !app_assoc. reflexivity.
    + cbn [vr_exists]. rewrite !length_app. lia.
    + rewrite !map_app, !forallb_app, F1, F2, F3. reflexivity.
  - destruct (check_image_exists_calls _ _ _ _ _ _ Hcheck)
      as (d1 & E1 & L1 & F1).
    exists d1. cbn [vr_exists]. auto.
Qed.

(** X11: a validation makes at least one and at most four calls, and
    at most two when the image is not found: there is no retry, and no
    enrichment for an image that does not exist. *)
Theorem validation_call_count (image : string) (st : State) :
  exists r st' d,
    validate_single_image image st = (Ok r, st')
    /\ calls st' = (calls st ++ d)%list
    /\ 1 <= List.length d <= (if vr_exists r then 4 else 2).
Proof.
  destruct (validate_single_image_validated World send image st)
    as (r & st' & E & Hv).
  destruct (validated_calls _ _ _ _ Hv) as (d & Ed & Hlen & _).
  now exists r, st', d.
Qed.

(** ** [validate_image_list] *)

Lemma Forall_dict_set {V} (P : string * V -> Prop) (d : dict V)
    (k : string) (v : V) :
  Forall P d -> P (k, v) -> Forall P (dict_set d k v).
Proof.
  intros Hd Hkv. induction Hd as [|[k' v'] d Hx Hd IH]; simpl.
  - repeat constructor. exact Hkv.
  - destruct (String.eqb k' k); constructor; assumption.
Qed.

Lemma validated_entry_ok (image : string) (st st' : State)
    (r : ValidationResult) :
  validated image st r st' -> entry_ok (image, r).
Proof.
  intros [registry repository tag st1 st2 st3 metadata tags Hparse _ _ Htags
         | registry repository tag st1 Hparse _]; cbn.
  - split; [reflexivity|]. split; [|split; [reflexivity|]].
    + exists registry, repository, tag. auto.
    + destruct (get_available_tags_at_most_10 World send registry repository st2)
        as (tags' & st3' & E' & Hle).
      rewrite Htags in E'. now injection E' as <- _.
  - split; [reflexivity|]. split; [|split; [reflexivity | lia]].
    exists registry, repository, tag. auto.
Qed.

Lemma keys_add_fold_fresh (l acc : list string) :
  NoDup (acc ++ l)%list -> fold_left keys_add l acc = (acc ++ l)%list.
Proof.
  revert acc. induction l as [|k l IH]; intros acc Hnd; simpl.
  - now rewrite app_nil_r.
  - unfold keys_add at 2.
    destruct (in_dec string_dec k acc) as [Hin|Hout].
    + apply NoDup_remove_2 in Hnd. destruct Hnd.
      apply in_or_app. now left.
    + rewrite IH; rewrite <- app_assoc; [reflexivity | exact Hnd].
Qed.

(** The loop of [validate_image_list], with all that it keeps. *)
Lemma validate_image_list_loop_facts (images : list string)
    (b : BatchResult) (st : State) :
  exists b' st' d,
    for_each images (fun image =>
        outer (print World ("Validating image: " ++ image)) ;;
        r <- outer (validate_single_image image) ;;
        update_local (fun b => set_result b image r)) (b, st)
    = (Ok tt, (b', st'))
    /\ total_images b' = total_images b
    /\ timestamp b' = timestamp b
    /\ dict_keys (results b') = fold_left keys_add images (dict_keys (results b))
    /\ (Forall entry_ok (results b) -> Forall entry_ok (results b'))
    /\ calls st' = (calls st ++ d)%list
    /\ List.length images <= List.length d <= 4 * List.length images
    /\ forallb session_request (map fst d) = true.
Proof.
  revert b st. induction images as [|image images IH]; intros b st.
  - exists b, st, []. rewrite app_nil_r. simpl. repeat split; auto.
  - cbn [for_each]. unfold bind at 1. unfold_monad.
    match goal with
    | |- context [validate_single_image image ?s] =>
        destruct (validate_single_image_validated World send image s)
          as (r & st1 & E & Hv)
    end.
    rewrite E. cbn [fst snd].
    destruct (validated_calls _ _ _ _ Hv) as (d1 & E1 & L1 & F1).
    cbn [calls] in E1.
    destruct (IH (set_result b image r) st1)
      as (b' & st' & d2 & E2 & Htotal & Htime & Hkeys & Hok & Ed & L2 & F2).
    exists b', st', (d1 ++ d2)%list.
    split; [exact E2|]. split; [exact Htotal|]. split; [exact Htime|].
    split; [|split; [|split; [|split]]].
    + rewrite Hkeys. cbn [set_result results fold_left].
      now rewrite dict_keys_set.
    + intros Hb. apply Hok. cbn [set_result results].
      apply Forall_dict_set; [exact Hb|].
      eapply validated_entry_ok; eauto.
    + rewrite Ed, E1, <- app_assoc. reflexivity.
    + rewrite length_app. cbn [List.length].
      destruct (vr_exists r); lia.
    + rewrite map_app, forallb_app, F1, F2. reflexivity.
Qed.

Lemma validate_image_list_facts (images : list string) (st : State) :
  exists b st' d,
    validate_image_list images st = (Ok b, st')
    /\ total_images b = List.length images
    /\ timestamp b = clock (world st)
    /\ dict_keys (results b) = fold_left keys_add images []
    /\ Forall entry_ok (results b)
    /\ calls st' = (calls st ++ d)%list
    /\ List.length images <= List.length d <= 4 * List.length images
    /\ forallb session_request (map fst d) = true.
Proof.
  unfold validate_image_list, bind at 1, time_time, with_local, bind at 1.
  destruct (validate_image_list_loop_facts images
              (mkBatchResult (clock (world st)) (List.length images) []) st)
    as (b & st' & d & E & Htotal & Htime & Hkeys & Hok & Ed & Hlen & Hreq).
  rewrite E. exists b, st', d. cbn [fst snd get_local].
  split; [reflexivity|]. repeat split; auto; lia.
Qed.


(** X13: every request of a batch goes over https, carries the
    [User-Agent] of the session first, and has a timeout of 10
    seconds. *)
Theorem batch_requests_are_session_requests (images : list string)
    (st : State) :
  exists b st' d,
    validate_image_list images st = (Ok b, st')
    /\ calls st' = (calls st ++ d)%list
    /\ forallb session_request (map fst d) = true.
Proof.
  destruct (validate_image_list_facts images st)
    as (b & st' & d & E & _ & _ & _ & _ & Ed & _ & Hreq).
  now exists b, st', d.
Qed.

(** X14: every entry of a batch is filed under its own image: the
    result repeats the key as [image], holds the registry, repository
    and tag that the key parses to, has [exists] true exactly when it
    has no error, and holds at most 10 tags. *)
Theorem batch_entries_ok (images : list string) (st : State) :
  exists b st',
    validate_image_list images st = (Ok b, st')
    /\ Forall entry_ok (results b).
Proof.
  destruct (validate_image_list_facts images st)
    as (b & st' & d & E & _ & _ & _ & Hok & _).
  now exists b, st'.
Qed.

(** X15: the results keep the order of the input: for images that are
    pairwise distinct, the keys of [results] are the input list. *)
Theorem batch_keeps_order (images : list string) (st : State) :
  NoDup images ->
  exists b st',
    validate_image_list images st = (Ok b, st')
    /\ dict_keys (results b) = images.
Proof.
  intros Hnd.
  destruct (validate_image_list_facts images st)
    as (b & st' & d & E & _ & _ & Hkeys & _).
  exists b, st'. split; [exact E|].
  rewrite Hkeys. now apply (keys_add_fold_fresh images []).
Qed.

(** ** [get_image_metadata] *)

(** X16: the metadata is all or nothing: either the empty mapping, or
    exactly the four keys [description], [star_count], [pull_count] and
    [last_updated], in this order. *)
Theorem metadata_all_or_nothing (registry repository tag : string)
    (st : State) :
  exists metadata st',
    get_image_metadata registry repository tag st = (Ok metadata, st')
    /\ (metadata = []
        \/ dict_keys metadata
           = ["description"; "star_count"; "pull_count"; "last_updated"]).
Proof.
  unfold get_image_metadata. unfold_monad. split_cases.
  all: do 2 eexists; split; [reflexivity|]; auto.
  all: exfalso;
    match goal with
    | H1 : py_get ?v _ _ = Ok _, H2 : py_get ?v _ _ = Raised _ |- _ =>
        destruct v; discriminate
    end.
Qed.

(** X17: what the metadata holds.  When the public web API answers 200
    with an object, each of the four fields is taken from the object,
    and a field that the object lacks gets its default: the empty
    string for [description] and [last_updated], 0 for the counters. *)
Theorem metadata_fields (repository tag : string) (st : State)
    (response : Response) (w : World) (d : dict pyval) :
  send (world st) (metadata_request repository) = (Ok response, w) ->
  status_code response = 200%Z ->
  json response = Ok (PDict d) ->
  get_image_metadata "docker.io" repository tag st
  = (Ok [("description", field_or d "description" (PStr ""));
         ("star_count", field_or d "star_count" (PInt 0));
         ("pull_count", field_or d "pull_count" (PInt 0));
         ("last_updated", field_or d "last_updated" (PStr ""))],
     mkState w (stdout st)
       (calls st ++ [(metadata_request repository, Ok response)])%list).
Proof.
  intros Hsend Hstatus Hjson.
  unfold get_image_metadata, metadata_request in *.
  cbn [String.eqb Ascii.eqb Bool.eqb]. unfold_monad.
  rewrite Hsend. cbn [fst snd world stdout calls].
  rewrite Hstatus. cbn [Z.eqb Pos.eqb]. rewrite Hjson. reflexivity.
Qed.

(** ** [get_available_tags] *)

Lemma comprehension_names (l names : list pyval) :
  Forall2 has_name l names ->
  comprehension (fun result => py_item result "name") l = Ok names.
Proof.
  induction 1 as [|entry n l names (d & -> & Hn) _ IH]; simpl.
  - reflexivity.
  - rewrite Hn, IH. reflexivity.
Qed.

Lemma py_item_no_name (entry : pyval) :
  (forall n, ~ has_name entry n) ->
  exists e, py_item entry "name" = Raised e.
Proof.
  intros Hno. destruct entry; simpl; eauto.
  destruct (dict_get d "name") as [n|] eqn:E; [|eauto].
  destruct (Hno n). now exists d.
Qed.

Lemma comprehension_no_name (l : list pyval) :
  Exists (fun entry => forall n, ~ has_name entry n) l ->
  exists e, comprehension (fun result => py_item result "name") l = Raised e.
Proof.
  induction 1 as [entry l Hno | entry l _ (e & IH)]; simpl.
  - destruct (py_item_no_name entry Hno) as (e & ->). eauto.
  - destruct (py_item entry "name"); [|eauto]. rewrite IH. eauto.
Qed.

(** X18: the tags are the names of the first ten entries, in order.
    When the public web API answers 200 with an object whose [results]
    is a list, and each of its first ten entries is an object with a
    [name], the tags are these names; what follows the tenth entry is
    not looked at. *)
Theorem tags_are_first_ten_names (repository : string) (st : State)
    (response : Response) (w : World) (d : dict pyval)
    (l names : list pyval) :
  send (world st) (tags_request repository) = (Ok response, w) ->
  status_code response = 200%Z ->
  json response = Ok (PDict d) ->
  dict_get d "results" = Some (PList l) ->
  Forall2 has_name (firstn 10 l) names ->
  get_available_tags "docker.io" repository st
  = (Ok names,
     mkState w (stdout st)
       (calls st ++ [(tags_request repository, Ok response)])%list).
Proof.
  intros Hsend Hstatus Hjson Hresults Hnames.
  unfold get_available_tags, tags_request in *.
  cbn [String.eqb Ascii.eqb Bool.eqb]. unfold_monad.
  rewrite Hsend. cbn [fst snd world stdout calls].
  rewrite Hstatus. cbn [Z.eqb Pos.eqb]. rewrite Hjson.
  cbn [py_get]. rewrite Hresults. cbn [py_slice_to py_iter].
  rewrite (comprehension_names _ _ Hnames). reflexivity.
Qed.

(** X19: one bad entry empties the tag list.  When one of the first
    ten entries of the listing is not an object with a [name], no tag
    is returned at all, not even those of the entries before it, and
    one line is printed. *)
Theorem tags_none_after_bad_entry (repository : string) (st : State)
    (response : Response) (w : World) (d : dict pyval) (l : list pyval) :
  send (world st) (tags_request repository) = (Ok response, w) ->
  status_code response = 200%Z ->
  json response = Ok (PDict d) ->
  dict_get d "results" = Some (PList l) ->
  Exists (fun entry => forall n, ~ has_name entry n) (firstn 10 l) ->
  exists line,
    get_available_tags "docker.io" repository st
    = (Ok [],
       mkState w (stdout st ++ [line])%list
         (calls st ++ [(tags_request repository, Ok response)])%list).
Proof.
  intros Hsend Hstatus Hjson Hresults Hbad.
  destruct (comprehension_no_name _ Hbad) as (e & Hcomp).
  unfold get_available_tags, tags_request in *.
  cbn [String.eqb Ascii.eqb Bool.eqb]. unfold_monad.
  rewrite Hsend. cbn [fst snd world stdout calls].
  rewrite Hstatus. cbn [Z.eqb Pos.eqb]. rewrite Hjson.
  cbn [py_get]. rewrite Hresults. cbn [py_slice_to py_iter].
  rewrite Hcomp. eexists. reflexivity.
Qed.

(** X20: an answer without [results] gives no tag and is no error:
    nothing is printed. *)
Theorem tags_without_results (repository : string) (st : State)
    (response : Response) (w : World) (d : dict pyval) :
  send (world st) (tags_request repository) = (Ok response, w) ->
  status_code response = 200%Z ->
  json response = Ok (PDict d) ->
  dict_get d "results" = None ->
  get_available_tags "docker.io" repository st
  = (Ok [],
     mkState w (stdout st)
       (calls st ++ [(tags_request repository, Ok response)])%list).
Proof.
  intros Hsend Hstatus Hjson Hresults.
  unfold get_available_tags, tags_request in *.
  cbn [String.eqb Ascii.eqb Bool.eqb]. unfold_monad.
  rewrite Hsend. cbn [fst snd world stdout calls].
  rewrite Hstatus. cbn [Z.eqb Pos.eqb]. rewrite Hjson.
  cbn [py_get]. rewrite Hresults. reflexivity.
Qed.

(** ** [validate_single_image] *)


(** ** [main] *)


Lemma main_report_summary (args : Args) (res : BatchResult) (st st' : State) :
  output args = None ->
  main_report args res st = (Ok tt, st') ->
  exists before,
    stdout st'
    = (before
         ++ [("Failed validations: "
                ++ str_of_Z
                     (Z.of_nat (total_images res)
                      - Z.of_nat (List.length
                                    (filter vr_exists
                                       (dict_values (results res))))))%string])%list.
Proof.
  intros Hout. unfold main_report. rewrite Hout.
  unfold bind, print. cbn [fst snd world stdout calls].
  match goal with
  | |- context [for_each ?l ?f ?s] => destruct (for_each l f s) as [[u|e] s2]
  end; [|discriminate].
  intros [= <-]. cbn [stdout]. eexists. reflexivity.
Qed.

(** X23: for images that are pairwise distinct, the last line of the
    summary counts the results that do not exist. *)
Theorem summary_failed_count (argv : list string) (args : Args)
    (st st' : State) :
  parse_args argv = Parsed args ->
  command args = sentinel ->
  output args = None ->
  NoDup (images args) ->
  main argv st = (Returned, st') ->
  exists res st1,
    validate_image_list (images args) st = (Ok res, st1)
    /\ last (stdout st') ""
       = "Failed validations: "
           ++ str_of_Z
                (Z.of_nat
                   (List.length
                      (filter (fun r => negb (vr_exists r))
                         (dict_values (results res))))).
Proof.
  intros Hparse Hcmd Hout Hnd.
  destruct (validate_image_list_facts (images args) st)
    as (res & st1 & d & E & Htotal & _ & Hkeys & _).
  unfold main. rewrite Hparse, Hcmd, String.eqb_refl. cbn [negb].
  unfold bind at 1. rewrite E.
  destruct (main_report args res st1) as [[[]|e] st2] eqn:Er; [|discriminate].
  intros [= <-]. exists res, st1. split; [reflexivity|].
  destruct (main_report_summary _ _ _ _ Hout Er) as (before & ->).
  rewrite last_last. f_equal. f_equal.
  rewrite (keys_add_fold_fresh (images args) []) in Hkeys by exact Hnd.
  cbn [app] in Hkeys.
  assert (Hlen : List.length (dict_values (results res))
                 = total_images res).
  { rewrite Htotal, <- Hkeys. unfold dict_values, dict_keys.
    now rewrite !length_map. }
  pose proof (filter_length vr_exists (dict_values (results res))) as Hsum.
  lia.
Qed.





End MoreValidatorFacts.

(* ================================================================= *)
(** * Further instances on concrete worlds *)

(** X2 on [ghcr.io/team/app:v1]. *)
Lemma canonical_round_trip_witness :
  (PyStr.contains ":" "v1" = false
   /\ PyStr.contains "/" "ghcr.io" = false
   /\ PyStr.contains "." "ghcr.io" || PyStr.contains ":" "ghcr.io" = true)
  /\ parse_image_name "ghcr.io/team/app:v1" = Ok ("ghcr.io", "team/app", "v1").
Proof.
  split; [repeat split|].
  apply (canonical_round_trip "ghcr.io" "team/app" "v1"); reflexivity.
Defined.

(** X3 on [ubuntu]. *)
Lemma bare_name_is_official_witness :
  (PyStr.contains ":" "ubuntu" = false /\ PyStr.contains "/" "ubuntu" = false)
  /\ parse_image_name "ubuntu" = Ok ("docker.io", "library/ubuntu", "latest")
  /\ hub_repo_name "library/ubuntu" = "ubuntu".
Proof.
  split; [split; reflexivity|].
  apply (bare_name_is_official "ubuntu"); reflexivity.
Defined.

(** X4 on [quay.io/]: nothing follows the slash, and the repository
    is empty. *)
Lemma registry_without_tag_witness :
  (PyStr.contains "/" "quay.io" = false
   /\ PyStr.contains ":" "quay.io" = false
   /\ PyStr.contains "." "quay.io" = true
   /\ PyStr.contains ":" "" = false)
  /\ parse_image_name "quay.io/" = Ok ("quay.io", "", "latest").
Proof.
  split; [repeat split|].
  apply (registry_without_tag "quay.io" ""); reflexivity.
Defined.

(** X5 on [localhost/app:dev] and [localhost/app]. *)
Lemma namespace_is_not_registry_witness :
  (PyStr.contains "/" "localhost" = false
   /\ PyStr.contains ":" "localhost" = false
   /\ PyStr.contains "." "localhost" = false
   /\ PyStr.contains ":" "dev" = false
   /\ PyStr.contains ":" "app" = false)
  /\ parse_image_name "localhost/app:dev"
     = Ok ("docker.io", "localhost/app", "dev")
  /\ parse_image_name "localhost/app"
     = Ok ("docker.io", "localhost/app", "latest").
Proof.
  split; [repeat split|].
  destruct (namespace_is_not_registry "localhost" "app" "dev"
              eq_refl eq_refl eq_refl) as [Htag Hbare].
  split; [apply Htag | apply Hbare]; reflexivity.
Defined.

(** X6 on [myregistry.example.com:5000/team/app:v2]. *)
Lemma parse_loses_nothing_witness :
  parse_image_name "myregistry.example.com:5000/team/app:v2"
  = Ok ("myregistry.example.com:5000", "team/app", "v2")
  /\ exists body,
      ("myregistry.example.com:5000/team/app:v2" = body ++ ":" ++ "v2"
       \/ ("myregistry.example.com:5000/team/app:v2" = body
           /\ "v2" = "latest"))
      /\ (body = "myregistry.example.com:5000" ++ "/" ++ "team/app"
          \/ ("myregistry.example.com:5000" = "docker.io"
              /\ body = "team/app")
          \/ ("myregistry.example.com:5000" = "docker.io"
              /\ "team/app" = "library/" ++ body)).
Proof.
  split; [reflexivity|].
  apply (parse_loses_nothing "myregistry.example.com:5000/team/app:v2"
           "myregistry.example.com:5000" "team/app" "v2").
  reflexivity.
Defined.


(** X8 on [library/nginx:latest], every call answered 200 with a
    token. *)
Lemma token_decides_witness :
  exists st',
    check_image_exists unit Scenario.up "docker.io" "library/nginx" "latest"
      Scenario.start = (Ok true, st')
    /\ map (fun entry => req_url (fst entry)) (calls st')
       = ["https://auth.docker.io/token";
          "https://registry-1.docker.io/v2/library/nginx/manifests/latest"].
Proof.
  destruct (token_decides unit Scenario.up "library/nginx" "latest"
              Scenario.start (mkResponse 200 (Ok Scenario.hub_body)) tt
              [("token", PStr "t0");
               ("description", PStr "Official build of Nginx.");
               ("star_count", PInt 100);
               ("results", PList [PDict [("name", PStr "latest")];
                                  PDict [("name", PStr "stable")]])]
              (PStr "t0") eq_refl eq_refl eq_refl eq_refl eq_refl)
    as (st' & E & Hcalls).
  exists st'. split; [exact E|]. rewrite Hcalls. reflexivity.
Defined.

(** X9 on [library/nginx:latest], the auth endpoint answering 503. *)
Lemma fallback_decides_witness :
  exists st',
    check_image_exists unit Cases.no_token "docker.io" "library/nginx" "latest"
      Scenario.start = (Ok true, st')
    /\ map (fun entry => req_url (fst entry)) (calls st')
       = ["https://auth.docker.io/token";
          "https://hub.docker.com/v2/repositories/nginx/tags/latest/"].
Proof.
  destruct (fallback_decides unit Cases.no_token "library/nginx" "latest"
              Scenario.start
              (mkResponse 503 (Raised (JSONDecodeError "Expecting value"))) tt
              eq_refl eq_refl)
    as (st' & E & Hcalls).
  exists st'. split; [exact E|]. rewrite Hcalls. reflexivity.
Defined.


(** X15 on the batch [redis], [nginx]. *)
Lemma batch_keeps_order_witness :
  NoDup ["redis"; "nginx"]
  /\ exists b st',
      validate_image_list unit Scenario.up Scenario.clock ["redis"; "nginx"]
        Scenario.start = (Ok b, st')
      /\ dict_keys (results b) = ["redis"; "nginx"].
Proof.
  assert (Hnd : NoDup ["redis"; "nginx"]).
  { repeat constructor; simpl; intuition discriminate. }
  split; [exact Hnd|].
  apply (batch_keeps_order unit Scenario.up Scenario.clock ["redis"; "nginx"]
           Scenario.start Hnd).
Defined.

(** X17 on an answer that holds none of the four fields. *)
Lemma metadata_fields_witness :
  get_image_metadata unit Cases.bare "docker.io" "library/nginx" "latest"
    Scenario.start
  = (Ok [("description", PStr ""); ("star_count", PInt 0);
         ("pull_count", PInt 0); ("last_updated", PStr "")],
     mkState tt []
       [(metadata_request "library/nginx",
         Ok (mkResponse 200 (Ok (PDict [("user", PStr "library")]))))]).
Proof.
  apply (metadata_fields unit Cases.bare "library/nginx" "latest"
           Scenario.start _ tt [("user", PStr "library")]
           eq_refl eq_refl eq_refl).
Defined.

(** X18 on a listing of twelve entries, the eleventh without name. *)
Lemma tags_are_first_ten_names_witness :
  fst (get_available_tags unit Cases.listing "docker.io" "library/nginx"
         Scenario.start)
  = Ok (map PStr ["1"; "2"; "3"; "4"; "5"; "6"; "7"; "8"; "9"; "10"]).
Proof.
  rewrite (tags_are_first_ten_names unit Cases.listing "library/nginx"
             Scenario.start _ tt
             [("count", PInt 12); ("results", PList Cases.long_listing)]
             Cases.long_listing
             (map PStr ["1"; "2"; "3"; "4"; "5"; "6"; "7"; "8"; "9"; "10"])
             eq_refl eq_refl eq_refl eq_refl).
  - reflexivity.
  - repeat constructor; eexists; split; reflexivity.
Defined.

(** X19 on a listing whose second entry has no name. *)
Lemma tags_none_after_bad_entry_witness :
  fst (get_available_tags unit Cases.broken_listing "docker.io"
         "library/nginx" Scenario.start)
  = Ok [].
Proof.
  destruct (tags_none_after_bad_entry unit Cases.broken_listing
              "library/nginx" Scenario.start _ tt
              [("results", PList [PDict [("name", PStr "latest")];
                                  PDict [("id", PInt 2)]])]
              [PDict [("name", PStr "latest")]; PDict [("id", PInt 2)]]
              eq_refl eq_refl eq_refl eq_refl) as (line & ->).
  - apply Exists_cons_tl, Exists_cons_hd.
    intros n (d & [= <-] & Hn). discriminate.
  - reflexivity.
Defined.

(** X20 on an answer without [results]. *)
Lemma tags_without_results_witness :
  get_available_tags unit Cases.bare "docker.io" "library/nginx"
    Scenario.start
  = (Ok [],
     mkState tt []
       [(tags_request "library/nginx",
         Ok (mkResponse 200 (Ok (PDict [("user", PStr "library")]))))]).
Proof.
  apply (tags_without_results unit Cases.bare "library/nginx" Scenario.start
           _ tt [("user", PStr "library")] eq_refl eq_refl eq_refl eq_refl).
Defined.


(** X23 on [!docker-image-validation nginx redis], every call timing
    out. *)
Lemma summary_failed_count_witness :
  NoDup ["nginx"; "redis"]
  /\ exists st',
      main unit Scenario.down Scenario.clock Scenario.write_json
        Scenario.parse_args [sentinel; "nginx"; "redis"] Scenario.start
      = (Returned, st')
      /\ last (stdout st') "" = "Failed validations: 2".
Proof.
  assert (Hnd : NoDup ["nginx"; "redis"]).
  { repeat constructor; simpl; intuition discriminate. }
  split; [exact Hnd|].
  set (out := main unit Scenario.down Scenario.clock Scenario.write_json
                Scenario.parse_args [sentinel; "nginx"; "redis"]
                Scenario.start).
  assert (Hmain : out = (Returned, snd out)) by (vm_compute; reflexivity).
  exists (snd out). split; [exact Hmain|].
  destruct (summary_failed_count unit Scenario.down Scenario.clock
              Scenario.write_json Scenario.parse_args
              [sentinel; "nginx"; "redis"]
              (mkArgs sentinel ["nginx"; "redis"] None false)
              Scenario.start (snd out) eq_refl eq_refl eq_refl Hnd Hmain)
    as (res & st1 & E & Hlast).
  rewrite Hlast. vm_compute in E. injection E as <- _. reflexivity.
Defined.

